(** * DS1307 real-time-clock driver: register codec

    A shallow embedding of [ds1307/ds1307.py] (class [DS1307]) and the
    properties of its register layer: BCD conversion, the seven datetime
    registers, the halt bit, the control register of the square-wave pin
    and the day-of-year arithmetic.

    Python integers are unbounded, so they are [Z]; [//] and [%] by a
    positive divisor are [Z.div] and [Z.modulo] (both floor), and [<<],
    [>>], [&], [|], [~] are [Z.shiftl], [Z.shiftr], [Z.land], [Z.lor],
    [Z.lnot], which agree with Python on negative numbers too. *)

From Stdlib Require Import ZArith Lia Bool String DecimalString List.
Import ListNotations.

Local Open Scope Z_scope.

(** ** Module constants *)

Definition DATETIME_REG : Z := 0.     (* 0x00-0x06 *)
Definition CHIP_HALT : Z := 128.
Definition CONTROL_REG : Z := 7.      (* 0x07 *)
Definition RAM_REG : Z := 8.          (* 0x08-0x3F *)

(** ** Exceptions and results *)

Inductive Exn : Type :=
| ValueError (msg : string)
| IndexError (msg : string).

Inductive Result (A : Type) : Type :=
| Ok (a : A)
| Raise (e : Exn).

Arguments Ok {A} a.
Arguments Raise {A} e.

Definition rbind {A B : Type} (r : Result A) (k : A -> Result B) : Result B :=
  match r with
  | Ok a => k a
  | Raise e => Raise e
  end.

(** Indexing a Python sequence (list, tuple, bytes) with an integer:
    a negative index counts from the end, anything outside raises
    [IndexError]. [what] is the name the message starts with. *)
Definition getitem (what : string) (l : list Z) (i : Z) : Result Z :=
  let j := if i <? 0 then i + Z.of_nat (length l) else i in
  if j <? 0 then Raise (IndexError (what ++ " index out of range")%string)
  else match nth_error l (Z.to_nat j) with
       | Some v => Ok v
       | None => Raise (IndexError (what ++ " index out of range")%string)
       end.

(** [range(a, b)] *)
Definition range (a b : Z) : list Z :=
  map (fun i => a + Z.of_nat i) (seq 0 (Z.to_nat (b - a))).

(** A [for] loop over a sequence whose body updates one variable and may
    raise. *)
Fixpoint for_in {S : Type} (xs : list Z) (body : Z -> S -> Result S) (s : S)
  : Result S :=
  match xs with
  | [] => Ok s
  | x :: xs' => rbind (body x s) (for_in xs' body)
  end.

(** [bytearray(n)] and the two ways the driver fills one. The tests of
    the repository run on CPython, where a [bytearray] only takes values
    in [range(0, 256)] and raises [ValueError] otherwise. *)
Definition bytearray (n : nat) : list Z := repeat 0 n.

Definition byte_ok (v : Z) : bool := (0 <=? v) && (v <? 256).

Fixpoint list_set (l : list Z) (i : nat) (v : Z) : list Z :=
  match l, i with
  | [], _ => []
  | _ :: l', O => v :: l'
  | x :: l', S i' => x :: list_set l' i' v
  end.

Definition setitem (buf : list Z) (i : nat) (v : Z) : Result (list Z) :=
  if (i <? List.length buf)%nat then
    if byte_ok v then Ok (list_set buf i v)
    else Raise (ValueError "byte must be in range(0, 256)")
  else Raise (IndexError "bytearray index out of range").

Definition bytearray_of (l : list Z) : Result (list Z) :=
  if forallb byte_ok l then Ok l
  else Raise (ValueError "byte must be in range(0, 256)").

(** [str(n)] of an integer, as [format] prints it. *)
Definition str (n : Z) : string := NilZero.string_of_int (Z.to_int n).

(** ** The bus

    [machine.I2C] is not part of the driver. It is modelled as one chip
    with a register file, answering at whatever address the driver uses,
    together with the list of transactions issued so far (oldest first).
    A transfer always succeeds in this model. *)

Inductive BusOp : Type :=
| ReadMem (addr memaddr nbytes : Z)
| WriteMem (addr memaddr : Z) (buf : list Z).

Record I2C : Type := mkI2C {
  mem : Z -> Z;
  trace : list BusOp
}.

Fixpoint store (m : Z -> Z) (memaddr : Z) (buf : list Z) : Z -> Z :=
  match buf with
  | [] => m
  | b :: buf' =>
      store (fun r => if r =? memaddr then b else m r) (memaddr + 1) buf'
  end.

Definition readfrom_mem (addr memaddr nbytes : Z) (bus : I2C) : list Z * I2C :=
  (map (mem bus) (range memaddr (memaddr + nbytes)),
   mkI2C (mem bus) (trace bus ++ [ReadMem addr memaddr nbytes])).

Definition writeto_mem (addr memaddr : Z) (buf : list Z) (bus : I2C) : unit * I2C :=
  (tt, mkI2C (store (mem bus) memaddr buf)
             (trace bus ++ [WriteMem addr memaddr buf])).

(** ** The driver *)

Module DS1307.

(** The attributes of an instance. *)
Record Self : Type := mkSelf {
  _addr : Z;
  _i2c : I2C;
  _weekday_start : Z;
  _halt : bool
}.

(** A method: it reads and updates the instance and returns or raises.
    The instance is threaded through a raise, as an exception leaves the
    attributes as they were set so far. *)
Definition M (A : Type) : Type := Self -> Result A * Self.

Definition ret {A : Type} (a : A) : M A := fun s => (Ok a, s).

Definition raise {A : Type} (e : Exn) : M A := fun s => (Raise e, s).

Definition bind {A B : Type} (m : M A) (k : A -> M B) : M B :=
  fun s => match m s with
           | (Ok a, s') => k a s'
           | (Raise e, s') => (Raise e, s')
           end.

Definition lift {A : Type} (r : Result A) : M A := fun s => (r, s).

Definition gets {A : Type} (f : Self -> A) : M A := fun s => (Ok (f s), s).

Definition set_weekday_start_attr (value : Z) : M unit :=
  fun s => (Ok tt, mkSelf (_addr s) (_i2c s) value (_halt s)).

Definition set_halt_attr (value : bool) : M unit :=
  fun s => (Ok tt, mkSelf (_addr s) (_i2c s) (_weekday_start s) value).

(** A call on [self._i2c]. *)
Definition bus {A : Type} (op : I2C -> A * I2C) : M A :=
  fun s => let (a, b) := op (_i2c s) in
           (Ok a, mkSelf (_addr s) b (_weekday_start s) (_halt s)).

Notation "x <- m ;; k" := (bind m (fun x => k))
  (at level 61, m at next level, right associativity).
Notation "m ;;; k" := (bind m (fun _ => k))
  (at level 61, right associativity).

(** [__init__]: [I2C0] stands for the default bus [I2C(0)]. *)
Definition __init__ (I2C0 : I2C) (addr : Z) (i2c : option I2C) : Self :=
  {| _addr := addr;
     _i2c := match i2c with None => I2C0 | Some b => b end;
     _weekday_start := 0;
     _halt := false |}.

Definition addr : M Z := gets _addr.

Definition weekday_start : M Z := gets _weekday_start.

Definition set_weekday_start (value : Z) : M unit :=
  if (0 <=? value) && (value <=? 6) then set_weekday_start_attr value
  else raise (ValueError "Weekday can only be in range 0-6").

(** [_dec_to_bcd]: [(value // 10) << 4 | (value % 10)] *)
Definition _dec_to_bcd (value : Z) : Z :=
  Z.lor (Z.shiftl (value / 10) 4) (value mod 10).

(** [_bcd_to_dec]: [((value >> 4) * 10) + (value & 0x0F)] *)
Definition _bcd_to_dec (value : Z) : Z :=
  (Z.shiftr value 4) * 10 + Z.land value 15.

(** [is_leap_year]: [year % 4 == 0] *)
Definition is_leap_year (year : Z) : bool := year mod 4 =? 0.

Definition month_days : list Z :=
  [31; 28; 31; 30; 31; 30; 31; 31; 30; 31; 30; 31].

(** [day_of_year]: the loop reads [month_days[x - 1]] for [x] in
    [range(1, month)], so a month above 13 raises [IndexError]. *)
Definition day_of_year (year month day : Z) : Result Z :=
  let year := year - 2000 in
  let days16 := day in
  rbind (for_in (range 1 month)
                (fun x days16 =>
                   rbind (getitem "list" month_days (x - 1))
                         (fun d => Ok (days16 + d)))
                days16)
        (fun days16 =>
           Ok (if (2 <=? month) && is_leap_year year
               then days16 + 1 else days16)).

(** [datetime] (getter): the tuple
    (year, month, day, hour, minute, second, weekday, yearday). The
    [bytearray(7)] the source first binds to [buf] is replaced at once by
    the bytes read and is left out. *)
Definition datetime : M (list Z) :=
  a <- gets _addr ;;
  buf <- bus (readfrom_mem a DATETIME_REG 7) ;;
  b6 <- lift (getitem "bytes" buf 6) ;;
  let year := _bcd_to_dec b6 + 2000 in
  b5 <- lift (getitem "bytes" buf 5) ;;
  let month := _bcd_to_dec b5 in
  b4 <- lift (getitem "bytes" buf 4) ;;
  let day := _bcd_to_dec b4 in
  yearday <- lift (day_of_year year month day) ;;
  b2 <- lift (getitem "bytes" buf 2) ;;
  b1 <- lift (getitem "bytes" buf 1) ;;
  b0 <- lift (getitem "bytes" buf 0) ;;
  b3 <- lift (getitem "bytes" buf 3) ;;
  ws <- gets _weekday_start ;;
  ret [ year;
        month;
        day;
        _bcd_to_dec b2;                 (* hour *)
        _bcd_to_dec b1;                 (* minute *)
        _bcd_to_dec (Z.land b0 0x7F);   (* second *)
        _bcd_to_dec (b3 - ws);          (* weekday *)
        yearday ].

(** [datetime] (setter) *)
Definition set_datetime (datetime : list Z) : M unit :=
  let buf := bytearray 7 in
  (* msb = CH, 1 = halt, 0 = go *)
  d5 <- lift (getitem "tuple" datetime 5) ;;
  buf <- lift (setitem buf 0 (Z.land (_dec_to_bcd d5) 0x7F)) ;;  (* second *)
  d4 <- lift (getitem "tuple" datetime 4) ;;
  buf <- lift (setitem buf 1 (_dec_to_bcd d4)) ;;                (* minute *)
  d3 <- lift (getitem "tuple" datetime 3) ;;
  buf <- lift (setitem buf 2 (_dec_to_bcd d3)) ;;                (* hour *)
  d6 <- lift (getitem "tuple" datetime 6) ;;
  ws <- gets _weekday_start ;;
  buf <- lift (setitem buf 3 (_dec_to_bcd (d6 + ws))) ;;
  d2 <- lift (getitem "tuple" datetime 2) ;;
  buf <- lift (setitem buf 4 (_dec_to_bcd d2)) ;;                (* day *)
  d1 <- lift (getitem "tuple" datetime 1) ;;
  buf <- lift (setitem buf 5 (_dec_to_bcd d1)) ;;                (* month *)
  d0 <- lift (getitem "tuple" datetime 0) ;;
  buf <- lift (setitem buf 6 (_dec_to_bcd (d0 - 2000))) ;;       (* year *)
  h <- gets _halt ;;
  buf <- (if h
          then b0 <- lift (getitem "bytearray" buf 0) ;;
               lift (setitem buf 0 (Z.lor b0 (Z.shiftl 1 7)))
          else ret buf) ;;
  a <- gets _addr ;;
  bus (writeto_mem a DATETIME_REG buf).

(** The read-only properties, each an index into [self.datetime]. *)
Definition year : M Z := t <- datetime ;; lift (getitem "tuple" t 0).
Definition month : M Z := t <- datetime ;; lift (getitem "tuple" t 1).
Definition day : M Z := t <- datetime ;; lift (getitem "tuple" t 2).
Definition hour : M Z := t <- datetime ;; lift (getitem "tuple" t 3).
Definition minute : M Z := t <- datetime ;; lift (getitem "tuple" t 4).
Definition second : M Z := t <- datetime ;; lift (getitem "tuple" t 5).
Definition weekday : M Z := t <- datetime ;; lift (getitem "tuple" t 5).
Definition yearday : M Z := t <- datetime ;; lift (getitem "tuple" t 7).

(** [halt] (getter) *)
Definition halt : M bool := gets _halt.

(** [halt] (setter) *)
Definition set_halt (value : bool) : M unit :=
  a <- gets _addr ;;
  rd <- bus (readfrom_mem a DATETIME_REG 1) ;;
  reg <- lift (getitem "bytes" rd 0) ;;
  let reg := if value then Z.lor reg CHIP_HALT
             else Z.land reg (Z.lnot CHIP_HALT) in
  set_halt_attr value ;;;
  a <- gets _addr ;;
  buf <- lift (bytearray_of [reg]) ;;
  bus (writeto_mem a DATETIME_REG buf).

Definition square_wave_msg : string :=
  ("Squarewave can be set to 0Hz, 1Hz, " ++ str (2 ^ 12) ++ "Hz, "
   ++ str (2 ^ 13) ++ "Hz or " ++ str (2 ^ 15) ++ "Hz")%string.

(** [square_wave]; both arguments default to 0 in the source. A boolean
    output level is the integer 0 or 1. *)
Definition square_wave (sqw out : Z) : M unit :=
  if negb (existsb (Z.eqb sqw) [0; 1; 4; 8; 32])
  then raise (ValueError square_wave_msg)
  else
    let rs0 := if (sqw =? 4) || (sqw =? 32) then 1 else 0 in
    let rs1 := if (sqw =? 8) || (sqw =? 32) then 1 else 0 in
    let out := if out >? 0 then 1 else 0 in
    let sqw := if sqw >? 0 then 1 else 0 in
    let reg := Z.lor (Z.lor (Z.lor rs0 (Z.shiftl rs1 1)) (Z.shiftl sqw 4))
                     (Z.shiftl out 7) in
    a <- gets _addr ;;
    buf <- lift (bytearray_of [reg]) ;;
    bus (writeto_mem a CONTROL_REG buf).

(** ** Sequences of calls

    What a program does with an instance: one call after another, a
    raised exception caught by the caller. *)
Inductive Call : Type :=
| GetAddr | GetWeekdayStart | SetWeekdayStart (value : Z)
| GetDatetime | SetDatetime (datetime : list Z)
| GetYear | GetMonth | GetDay | GetHour | GetMinute | GetSecond
| GetWeekday | GetYearday
| GetHalt | SetHalt (value : bool)
| SquareWave (sqw out : Z).

Definition call (c : Call) (s : Self) : Self :=
  match c with
  | GetAddr => snd (addr s)
  | GetWeekdayStart => snd (weekday_start s)
  | SetWeekdayStart v => snd (set_weekday_start v s)
  | GetDatetime => snd (datetime s)
  | SetDatetime t => snd (set_datetime t s)
  | GetYear => snd (year s)
  | GetMonth => snd (month s)
  | GetDay => snd (day s)
  | GetHour => snd (hour s)
  | GetMinute => snd (minute s)
  | GetSecond => snd (second s)
  | GetWeekday => snd (weekday s)
  | GetYearday => snd (yearday s)
  | GetHalt => snd (halt s)
  | SetHalt v => snd (set_halt v s)
  | SquareWave q o => snd (square_wave q o s)
  end.

Definition calls (cs : list Call) (s : Self) : Self :=
  fold_left (fun s c => call c s) cs s.

Definition is_halt_write (c : Call) : bool :=
  match c with SetHalt _ => true | _ => false end.

(** ** Instances to run the driver on

    A chip whose registers hold the given bytes from register 0 on, and a
    driver constructed on it at the default address. *)
Definition chip (regs : list Z) : I2C :=
  mkI2C (fun r => nth (Z.to_nat r) regs 0) [].

Definition fresh (regs : list Z) : Self :=
  __init__ (chip []) 0x68 (Some (chip regs)).

(** A method that leaves the cached halt flag alone. *)
Definition keeps_halt {A : Type} (m : M A) : Prop :=
  forall s, _halt (snd (m s)) = _halt s.

(** ** The day of the year as the specification words it

    The lengths of the months before [month], plus [day], plus one from
    February on in a year divisible by four. *)
Definition sum_Z (l : list Z) : Z := fold_right Z.add 0 l.

Definition day_of_year_spec (year month day : Z) : Z :=
  sum_Z (firstn (Z.to_nat (month - 1)) [31; 28; 31; 30; 31; 30; 31; 31; 30; 31; 30; 31])
  + day
  + (if (2 <=? month) && (year mod 4 =? 0) then 1 else 0).

(** ** Notions used to state what the methods keep

    [keeps f m]: the method [m] leaves the reading [f] of the instance
    (an attribute, a register of the chip) as it was, whether it returns
    or raises. *)
Definition keeps {A B : Type} (f : Self -> B) (m : M A) : Prop :=
  forall s, f (snd (m s)) = f s.

(** The seconds register holds a byte whose bit 7 is the cached halt
    flag. *)
Definition halt_coherent (s : Self) : Prop :=
  0 <= mem (_i2c s) 0 < 256 /\ Z.testbit (mem (_i2c s) 0) 7 = _halt s.

(** The values whose BCD encoding fits one byte. *)
Definition bcd_field_ok (v : Z) : bool := (0 <=? v) && (v <=? 159).

(** The leap years of the Gregorian calendar. *)
Definition gregorian_leap (year : Z) : bool :=
  (year mod 4 =? 0) && (negb (year mod 100 =? 0) || (year mod 400 =? 0)).

End DS1307.

Import DS1307.

(** ** Arithmetic of the BCD helpers *)

Lemma lor_shiftl4 (a b : Z) :
  0 <= b < 16 -> Z.lor (Z.shiftl a 4) b = a * 16 + b.
Proof.
  intros Hb.
  rewrite Z.shiftl_mul_pow2 by lia.
  change (2 ^ 4) with 16.
  pose proof (Z.add_lor_land (a * 16) b) as Hsum.
  enough (Z.land (a * 16) b = 0) by lia.
  apply Z.bits_inj'. intros n Hn.
  rewrite Z.land_spec, Z.bits_0.
  destruct (Z.ltb_spec n 4) as [Hlt | Hge].
  - replace (a * 16) with (a * 2 ^ 4) by reflexivity.
    rewrite Z.mul_pow2_bits_low by lia. reflexivity.
  - replace b with (b mod 2 ^ 4) by (apply Z.mod_small; simpl; lia).
    rewrite Z.mod_pow2_bits_high by lia.
    apply andb_false_r.
Qed.

Lemma shiftr4_div (x : Z) : Z.shiftr x 4 = x / 16.
Proof. rewrite Z.shiftr_div_pow2 by lia. reflexivity. Qed.

Lemma land15_mod (x : Z) : Z.land x 15 = x mod 16.
Proof. change 15 with (Z.ones 4). rewrite Z.land_ones by lia. reflexivity. Qed.

Lemma bcd_to_dec_pack (a b : Z) :
  0 <= b < 16 -> _bcd_to_dec (Z.lor (Z.shiftl a 4) b) = a * 10 + b.
Proof.
  intros Hb. unfold _bcd_to_dec.
  rewrite lor_shiftl4, shiftr4_div, land15_mod by assumption.
  rewrite Z.div_add_l by lia.
  rewrite (Z.add_comm (a * 16) b), Z.mod_add by lia.
  rewrite Z.div_small, Z.mod_small by lia.
  lia.
Qed.

(** Decoding inverts encoding on every integer, not only on 0..99. *)
Lemma bcd_to_dec_dec_to_bcd (v : Z) : _bcd_to_dec (_dec_to_bcd v) = v.
Proof.
  unfold _dec_to_bcd.
  pose proof (Z.mod_pos_bound v 10 ltac:(lia)) as Hm.
  rewrite bcd_to_dec_pack by lia.
  pose proof (Z.div_mod v 10 ltac:(lia)). lia.
Qed.

Lemma dec_to_bcd_arith (v : Z) : _dec_to_bcd v = (v / 10) * 16 + v mod 10.
Proof.
  unfold _dec_to_bcd.
  pose proof (Z.mod_pos_bound v 10 ltac:(lia)).
  apply lor_shiftl4. lia.
Qed.

Lemma dec_to_bcd_byte (v : Z) : 0 <= v <= 99 -> 0 <= _dec_to_bcd v <= 153.
Proof.
  intros Hv. rewrite dec_to_bcd_arith.
  pose proof (Z.mod_pos_bound v 10 ltac:(lia)).
  assert (0 <= v / 10 < 10).
  { split; [apply Z.div_pos; lia | apply Z.div_lt_upper_bound; lia]. }
  lia.
Qed.

(** C2: the BCD helpers are mutually inverse on their valid domains:
    decoding the encoding of an integer in 0..99 gives it back, and
    encoding the decoding of a byte whose two nibbles are at most 9 gives
    the byte back. *)
Theorem bcd_helpers_inverse (v b : Z)
  (Hv : 0 <= v <= 99)
  (Hb : 0 <= b <= 255)
  (Hhi : Z.shiftr b 4 <= 9)
  (Hlo : Z.land b 15 <= 9) :
  _bcd_to_dec (_dec_to_bcd v) = v /\ _dec_to_bcd (_bcd_to_dec b) = b.
Proof.
  split; [apply bcd_to_dec_dec_to_bcd|].
  rewrite dec_to_bcd_arith. unfold _bcd_to_dec.
  rewrite shiftr4_div, land15_mod in *.
  pose proof (Z.mod_pos_bound b 16 ltac:(lia)) as Hm.
  assert (Hq : 0 <= b / 16) by (apply Z.div_pos; lia).
  replace ((b / 16 * 10 + b mod 16) / 10) with (b / 16).
  2:{ rewrite Z.div_add_l by lia. rewrite (Z.div_small (b mod 16)) by lia. lia. }
  replace ((b / 16 * 10 + b mod 16) mod 10) with (b mod 16).
  2:{ rewrite (Z.add_comm (b / 16 * 10)), Z.mod_add by lia.
      rewrite (Z.mod_small (b mod 16) 10) by lia. reflexivity. }
  pose proof (Z.div_mod b 16 ltac:(lia)). lia.
Qed.

Lemma bcd_helpers_inverse_witness :
  _bcd_to_dec (_dec_to_bcd 59) = 59 /\ _dec_to_bcd (_bcd_to_dec 0x59) = 0x59.
Proof.
  apply (bcd_helpers_inverse 59 0x59); vm_compute; try split; congruence.
Defined.

(** ** Day of the year *)

Lemma getitem_nth (what : string) (l : list Z) (k : nat) :
  (k < List.length l)%nat ->
  getitem what l (Z.of_nat k) = Ok (nth k l 0).
Proof.
  intros Hk. unfold getitem. cbv zeta.
  assert (Hn : (Z.of_nat k <? 0) = false) by (apply Z.ltb_ge; lia).
  rewrite !Hn, Nat2Z.id.
  destruct (nth_error l k) as [v|] eqn:E.
  - f_equal. symmetry. apply nth_error_nth. exact E.
  - apply nth_error_None in E. lia.
Qed.

Lemma skipn_cons_nth (l : list Z) : forall k,
  (k < List.length l)%nat -> skipn k l = nth k l 0 :: skipn (S k) l.
Proof.
  induction l as [|x l IH]; intros k Hk; simpl in Hk; [lia|].
  destruct k as [|k]; [reflexivity|].
  simpl. apply IH. lia.
Qed.

(** The loop of [day_of_year], started at any month: it adds up the
    entries of the table it walks over. *)
Lemma for_in_table_sum (l : list Z) : forall (n k : nat) (acc : Z),
  (k + n <= List.length l)%nat ->
  for_in (map (fun i => 1 + Z.of_nat i) (seq k n))
         (fun x days16 =>
            rbind (getitem "list" l (x - 1)) (fun d => Ok (days16 + d)))
         acc
  = Ok (acc + sum_Z (firstn n (skipn k l))).
Proof.
  induction n as [|n IH]; intros k acc Hk.
  - simpl. f_equal. unfold sum_Z. simpl. lia.
  - cbn [seq map for_in].
    replace (1 + Z.of_nat k - 1) with (Z.of_nat k) by lia.
    rewrite getitem_nth by lia.
    cbn [rbind].
    rewrite IH by lia.
    rewrite (skipn_cons_nth l k) by lia.
    cbn [firstn]. unfold sum_Z. cbn [fold_right]. f_equal. lia.
Qed.

Lemma is_leap_year_since_2000 (year : Z) :
  is_leap_year (year - 2000) = (year mod 4 =? 0).
Proof.
  unfold is_leap_year.
  replace (year - 2000) with (year + (-500) * 4) by lia.
  rewrite Z.mod_add by lia. reflexivity.
Qed.

Lemma day_of_year_upto_13 (year month day : Z) :
  month <= 13 ->
  day_of_year year month day = Ok (day_of_year_spec year month day).
Proof.
  intros Hm.
  unfold day_of_year, day_of_year_spec, range.
  rewrite (for_in_table_sum month_days (Z.to_nat (month - 1)) 0 day).
  2:{ change (List.length month_days) with 12%nat. lia. }
  cbn [rbind skipn].
  rewrite is_leap_year_since_2000.
  fold month_days.
  destruct ((2 <=? month) && (year mod 4 =? 0)); f_equal; lia.
Qed.

(** C7: for a month in 1..12, [day_of_year] is the sum of the standard
    month lengths of the months strictly before it, plus the day, plus one
    if the month is at least 2 and the year is divisible by four; in
    particular it is 149 for 2023-05-29 and 86 for 2024-03-26. *)
Theorem day_of_year_correct (year month day : Z)
  (Hm : 1 <= month <= 12) :
  day_of_year year month day = Ok (day_of_year_spec year month day)
  /\ day_of_year 2023 5 29 = Ok 149
  /\ day_of_year 2024 3 26 = Ok 86.
Proof.
  split; [|split; reflexivity].
  unfold day_of_year, day_of_year_spec, range.
  rewrite (for_in_table_sum month_days (Z.to_nat (month - 1)) 0 day).
  2:{ change (List.length month_days) with 12%nat. lia. }
  cbn [rbind skipn].
  rewrite is_leap_year_since_2000.
  fold month_days.
  destruct ((2 <=? month) && (year mod 4 =? 0)); f_equal; lia.
Qed.

Lemma day_of_year_correct_witness :
  day_of_year 2024 3 26 = Ok (day_of_year_spec 2024 3 26)
  /\ day_of_year 2023 5 29 = Ok 149
  /\ day_of_year 2024 3 26 = Ok 86.
Proof.
  apply (day_of_year_correct 2024 3 26). lia.
Defined.

(** ** Rejected arguments *)

(** C9: a weekday start outside 0..6 and a square-wave rate outside
    {0, 1, 4, 8, 32} each raise [ValueError] (the second naming 0Hz, 1Hz,
    4096Hz, 8192Hz and 32768Hz); the instance is left as it was, so the
    configured weekday start keeps its value and the bus sees no
    transaction. *)
Theorem invalid_arguments_rejected (s : Self) (value sqw out : Z)
  (Hvalue : ~ 0 <= value <= 6)
  (Hsqw : ~ In sqw [0; 1; 4; 8; 32]) :
  set_weekday_start value s
  = (Raise (ValueError "Weekday can only be in range 0-6"), s)
  /\ square_wave sqw out s
     = (Raise (ValueError
          "Squarewave can be set to 0Hz, 1Hz, 4096Hz, 8192Hz or 32768Hz"), s)
  /\ _weekday_start (snd (set_weekday_start value s)) = _weekday_start s
  /\ trace (_i2c (snd (set_weekday_start value s))) = trace (_i2c s)
  /\ trace (_i2c (snd (square_wave sqw out s))) = trace (_i2c s).
Proof.
  assert (H1 : set_weekday_start value s
               = (Raise (ValueError "Weekday can only be in range 0-6"), s)).
  { unfold set_weekday_start.
    destruct (Z.leb_spec 0 value), (Z.leb_spec value 6);
      try reflexivity; lia. }
  assert (H2 : square_wave sqw out s
               = (Raise (ValueError
                    "Squarewave can be set to 0Hz, 1Hz, 4096Hz, 8192Hz or 32768Hz"), s)).
  { unfold square_wave.
    destruct (existsb (Z.eqb sqw) [0; 1; 4; 8; 32]) eqn:E; [|reflexivity].
    exfalso. apply Hsqw.
    apply existsb_exists in E. destruct E as [x [Hin Hx]].
    apply Z.eqb_eq in Hx. subst x. exact Hin. }
  rewrite H1, H2. repeat split.
Qed.

Lemma invalid_arguments_rejected_witness :
  set_weekday_start 7 (fresh [])
  = (Raise (ValueError "Weekday can only be in range 0-6"), fresh [])
  /\ square_wave 2 0 (fresh [])
     = (Raise (ValueError
          "Squarewave can be set to 0Hz, 1Hz, 4096Hz, 8192Hz or 32768Hz"),
        fresh [])
  /\ _weekday_start (snd (set_weekday_start 7 (fresh [])))
     = _weekday_start (fresh [])
  /\ trace (_i2c (snd (set_weekday_start 7 (fresh []))))
     = trace (_i2c (fresh []))
  /\ trace (_i2c (snd (square_wave 2 0 (fresh []))))
     = trace (_i2c (fresh [])).
Proof.
  apply (invalid_arguments_rejected (fresh []) 7 2 0).
  - lia.
  - simpl. intros [H | [H | [H | [H | [H | H]]]]]; try discriminate H; exact H.
Defined.

(** ** The cached halt flag *)

Lemma keeps_halt_ret {A : Type} (a : A) : keeps_halt (ret a).
Proof. intro s. reflexivity. Qed.

Lemma keeps_halt_raise {A : Type} (e : Exn) : keeps_halt (@raise A e).
Proof. intro s. reflexivity. Qed.

Lemma keeps_halt_lift {A : Type} (r : Result A) : keeps_halt (lift r).
Proof. intro s. reflexivity. Qed.

Lemma keeps_halt_gets {A : Type} (f : Self -> A) : keeps_halt (gets f).
Proof. intro s. reflexivity. Qed.

Lemma keeps_halt_bus {A : Type} (op : I2C -> A * I2C) : keeps_halt (bus op).
Proof. intro s. unfold bus. destruct (op (_i2c s)). reflexivity. Qed.

Lemma keeps_halt_weekday_start_attr (v : Z) :
  keeps_halt (set_weekday_start_attr v).
Proof. intro s. reflexivity. Qed.

Lemma keeps_halt_bind {A B : Type} (m : M A) (k : A -> M B) :
  keeps_halt m -> (forall a, keeps_halt (k a)) -> keeps_halt (bind m k).
Proof.
  intros Hm Hk s. unfold bind.
  specialize (Hm s).
  destruct (m s) as [[a | e] s']; simpl in Hm |- *.
  - rewrite Hk. exact Hm.
  - exact Hm.
Qed.

Create HintDb halt_db.
#[local] Hint Resolve keeps_halt_ret keeps_halt_raise keeps_halt_lift
  keeps_halt_gets keeps_halt_bus keeps_halt_weekday_start_attr : halt_db.

Ltac keeps_halt_step :=
  match goal with
  | |- keeps_halt (bind _ _) => apply keeps_halt_bind; [|intro]
  | |- keeps_halt (if ?b then _ else _) => destruct b
  | |- keeps_halt _ => solve [auto with halt_db]
  end.

Lemma keeps_halt_datetime : keeps_halt datetime.
Proof. unfold datetime. repeat keeps_halt_step. Qed.

Lemma keeps_halt_set_datetime (t : list Z) : keeps_halt (set_datetime t).
Proof. unfold set_datetime. repeat keeps_halt_step. Qed.

Lemma keeps_halt_set_weekday_start (v : Z) : keeps_halt (set_weekday_start v).
Proof. unfold set_weekday_start. repeat keeps_halt_step. Qed.

Lemma keeps_halt_square_wave (q o : Z) : keeps_halt (square_wave q o).
Proof. unfold square_wave. repeat keeps_halt_step. Qed.

Lemma keeps_halt_index (i : Z) :
  keeps_halt (bind datetime (fun t => lift (getitem "tuple" t i))).
Proof.
  apply keeps_halt_bind; [apply keeps_halt_datetime | intro; apply keeps_halt_lift].
Qed.

Lemma call_keeps_halt (c : Call) (s : Self) :
  is_halt_write c = false -> _halt (call c s) = _halt s.
Proof.
  destruct c; simpl; intros Hc; try discriminate Hc;
    try reflexivity;
    first [ apply keeps_halt_datetime
          | apply keeps_halt_set_datetime
          | apply keeps_halt_set_weekday_start
          | apply keeps_halt_square_wave
          | apply (keeps_halt_index _ s) ].
Qed.

Lemma calls_keep_halt (cs : list Call) : forall s,
  existsb is_halt_write cs = false -> _halt (calls cs s) = _halt s.
Proof.
  unfold calls.
  induction cs as [|c cs IH]; intros s Hcs; simpl in *; [reflexivity|].
  apply orb_false_iff in Hcs. destruct Hcs as [Hc Hcs].
  rewrite IH by exact Hcs.
  apply call_keeps_halt. exact Hc.
Qed.

(** C10: reading the halt flag issues no bus transaction and returns the
    cached attribute; the attribute is [False] after construction, so the
    getter then returns [False] whatever bit 7 of the seconds register of
    the chip is, and goes on doing so through every sequence of calls that
    contains no halt write (reading or writing the datetime never touches
    the cache). *)
Theorem halt_getter_reads_cache
  (I2C0 : I2C) (a : Z) (i2c : option I2C) (s : Self) (cs : list Call)
  (Hcs : existsb is_halt_write cs = false) :
  halt s = (Ok (_halt s), s)
  /\ trace (_i2c (snd (halt s))) = trace (_i2c s)
  /\ halt (__init__ I2C0 a i2c) = (Ok false, __init__ I2C0 a i2c)
  /\ fst (halt (calls cs (__init__ I2C0 a i2c))) = Ok false.
Proof.
  repeat split.
  unfold halt, gets. simpl.
  rewrite calls_keep_halt by exact Hcs. reflexivity.
Qed.

Lemma halt_getter_reads_cache_witness :
  halt (fresh [0xD9]) = (Ok (_halt (fresh [0xD9])), fresh [0xD9])
  /\ trace (_i2c (snd (halt (fresh [0xD9])))) = trace (_i2c (fresh [0xD9]))
  /\ halt (__init__ (chip [0xD9]) 104 None)
     = (Ok false, __init__ (chip [0xD9]) 104 None)
  /\ fst (halt (calls [GetDatetime;
                       SetDatetime [2023; 5; 29; 20; 45; 59; 3; 149];
                       SquareWave 1 0; GetSecond]
                      (__init__ (chip [0xD9]) 104 None))) = Ok false.
Proof.
  apply (halt_getter_reads_cache (chip [0xD9]) 104 None (fresh [0xD9])
           [GetDatetime; SetDatetime [2023; 5; 29; 20; 45; 59; 3; 149];
            SquareWave 1 0; GetSecond]).
  reflexivity.
Defined.

(** ** Bytes *)

Lemma byte_bits_high (x n : Z) :
  0 <= x < 256 -> 8 <= n -> Z.testbit x n = false.
Proof.
  intros Hx Hn.
  replace x with (x mod 2 ^ 8) by (apply Z.mod_small; simpl; lia).
  apply Z.mod_pow2_bits_high. lia.
Qed.

Lemma byte_bits_high_7 (x n : Z) :
  0 <= x < 128 -> 7 <= n -> Z.testbit x n = false.
Proof.
  intros Hx Hn.
  replace x with (x mod 2 ^ 7) by (apply Z.mod_small; simpl; lia).
  apply Z.mod_pow2_bits_high. lia.
Qed.

Lemma byte_of_bits (x : Z) :
  0 <= x -> (forall n, 8 <= n -> Z.testbit x n = false) -> 0 <= x < 256.
Proof.
  intros Hx Hbits.
  assert (E : x = x mod 2 ^ 8).
  { apply Z.bits_inj'. intros n Hn.
    rewrite Z.testbit_mod_pow2 by lia.
    destruct (Z.ltb_spec n 8) as [Hlt | Hge]; simpl; [reflexivity|].
    apply Hbits. exact Hge. }
  pose proof (Z.mod_pos_bound x (2 ^ 8) ltac:(simpl; lia)) as Hb.
  change (2 ^ 8) with 256 in *. lia.
Qed.

Lemma byte_ok_true (x : Z) : 0 <= x < 256 -> byte_ok x = true.
Proof.
  intros Hx. unfold byte_ok.
  apply andb_true_intro. split; [apply Z.leb_le | apply Z.ltb_lt]; lia.
Qed.

Lemma bytearray_of_1 (x : Z) : byte_ok x = true -> bytearray_of [x] = Ok [x].
Proof. intros Hx. unfold bytearray_of. simpl. rewrite Hx. reflexivity. Qed.

Lemma set_bit7_byte (b : Z) : 0 <= b < 256 -> 0 <= Z.lor b 128 < 256.
Proof.
  intros Hb. apply byte_of_bits.
  - apply Z.lor_nonneg. lia.
  - intros n Hn. rewrite Z.lor_spec.
    rewrite (byte_bits_high b n), (byte_bits_high 128 n) by lia.
    reflexivity.
Qed.

Lemma clear_bit7_byte (b : Z) :
  0 <= b < 256 -> 0 <= Z.land b (Z.lnot 128) < 256.
Proof.
  intros Hb. apply byte_of_bits.
  - apply Z.land_nonneg. left. lia.
  - intros n Hn. rewrite Z.land_spec.
    rewrite (byte_bits_high b n) by lia.
    reflexivity.
Qed.

Lemma set_bit7_bits (b n : Z) :
  Z.testbit (Z.lor b 128) n = Z.testbit b n || (n =? 7).
Proof.
  rewrite Z.lor_spec. f_equal.
  change 128 with (2 ^ 7).
  rewrite Z.pow2_bits_eqb by lia.
  apply Z.eqb_sym.
Qed.

Lemma clear_bit7_bits (b n : Z) :
  0 <= n -> Z.testbit (Z.land b (Z.lnot 128)) n = Z.testbit b n && negb (n =? 7).
Proof.
  intros Hn.
  rewrite Z.land_spec, Z.lnot_spec by lia. f_equal. f_equal.
  change 128 with (2 ^ 7).
  rewrite Z.pow2_bits_eqb by lia.
  apply Z.eqb_sym.
Qed.

(** ** Halt control *)

Lemma readfrom_mem_1 (a : Z) (b : I2C) :
  readfrom_mem a DATETIME_REG 1 b
  = ([mem b 0], mkI2C (mem b) (trace b ++ [ReadMem a 0 1])).
Proof. reflexivity. Qed.

(** C8: the halt setter reads one byte at register 0, sets bit 7 of it
    for [True] and clears it for [False] (the other bits stay), writes
    that one byte back at register 0 and caches the requested boolean;
    over a byte 0x59 it writes 0xD9 for [True] and 0x59 for [False]. *)
Theorem set_halt_correct (s : Self) (value : bool)
  (Hbyte : 0 <= mem (_i2c s) 0 < 256) :
  let b := mem (_i2c s) 0 in
  let reg := if value then Z.lor b 128 else Z.land b (Z.lnot 128) in
  set_halt value s
  = (Ok tt,
     {| _addr := _addr s;
        _i2c := {| mem := store (mem (_i2c s)) 0 [reg];
                   trace := trace (_i2c s)
                            ++ [ReadMem (_addr s) 0 1;
                                WriteMem (_addr s) 0 [reg]] |};
        _weekday_start := _weekday_start s;
        _halt := value |})
  /\ Z.testbit reg 7 = value
  /\ (forall n, n <> 7 -> Z.testbit reg n = Z.testbit b n)
  /\ (b = 0x59 -> reg = if value then 0xD9 else 0x59).
Proof.
  intros b reg.
  assert (Hreg : byte_ok reg = true).
  { apply byte_ok_true. subst reg.
    destruct value; [apply set_bit7_byte | apply clear_bit7_byte]; exact Hbyte. }
  split; [|split; [|split]].
  - unfold set_halt, bind, gets, bus, lift, set_halt_attr.
    rewrite readfrom_mem_1.
    cbn -[byte_ok Z.lor Z.land Z.lnot].
    subst reg b. change CHIP_HALT with 128.
    rewrite bytearray_of_1 by exact Hreg.
    unfold DATETIME_REG.
    rewrite <- app_assoc. reflexivity.
  - subst reg. destruct value.
    + rewrite set_bit7_bits. apply orb_true_r.
    + rewrite clear_bit7_bits by lia. apply andb_false_r.
  - intros n Hn. subst reg.
    assert (Hn7 : (n =? 7) = false) by (apply Z.eqb_neq; exact Hn).
    destruct value.
    + rewrite set_bit7_bits, Hn7. apply orb_false_r.
    + destruct (Z.ltb_spec n 0) as [Hneg | Hpos].
      * rewrite !Z.testbit_neg_r by exact Hneg. reflexivity.
      * rewrite clear_bit7_bits, Hn7 by exact Hpos. apply andb_true_r.
  - intros Hb. subst reg. rewrite Hb. destruct value; reflexivity.
Qed.

Lemma set_halt_correct_witness :
  fst (set_halt true (fresh [0x59])) = Ok tt
  /\ trace (_i2c (snd (set_halt true (fresh [0x59]))))
     = [ReadMem 104 0 1; WriteMem 104 0 [0xD9]]
  /\ _halt (snd (set_halt true (fresh [0x59]))) = true.
Proof.
  pose proof (set_halt_correct (fresh [0x59]) true ltac:(simpl; lia)) as H.
  destruct H as [H _].
  rewrite H. repeat split.
Defined.

(** ** Square-wave control *)

(** The claim as the specification words it fails on its second example:
    with rate 0 and output level 0 the control byte is 0x00, and 0x80 is
    not what is written. *)
Lemma square_wave_0_0_not_0x80 :
  trace (_i2c (snd (square_wave 0 0 (fresh [])))) = [WriteMem 104 7 [0x00]]
  /\ trace (_i2c (snd (square_wave 0 0 (fresh [])))) <> [WriteMem 104 7 [0x80]].
Proof.
  split; [reflexivity|].
  intro H. discriminate H.
Qed.

(** C4 (amended): for a legal rate [square_wave] writes one byte at
    register 7 in a single transaction, with bit 0 set iff the rate is 4
    or 32, bit 1 set iff it is 8 or 32, bit 4 set iff it is not 0, bit 7
    set iff the requested output level is positive, and no other bit set;
    rate 32 with output level [True] writes 0x93, rate 0 with output level
    1 writes 0x80 and rate 0 with output level 0 writes 0x00. *)
Theorem square_wave_control_byte (s : Self) (sqw out : Z)
  (Hsqw : In sqw [0; 1; 4; 8; 32]) :
  exists reg : Z,
    square_wave sqw out s
    = (Ok tt,
       {| _addr := _addr s;
          _i2c := {| mem := store (mem (_i2c s)) CONTROL_REG [reg];
                     trace := trace (_i2c s)
                              ++ [WriteMem (_addr s) CONTROL_REG [reg]] |};
          _weekday_start := _weekday_start s;
          _halt := _halt s |})
    /\ Z.testbit reg 0 = (sqw =? 4) || (sqw =? 32)
    /\ Z.testbit reg 1 = (sqw =? 8) || (sqw =? 32)
    /\ Z.testbit reg 4 = negb (sqw =? 0)
    /\ Z.testbit reg 7 = (out >? 0)
    /\ reg = Z.b2z ((sqw =? 4) || (sqw =? 32))
             + 2 * Z.b2z ((sqw =? 8) || (sqw =? 32))
             + 16 * Z.b2z (negb (sqw =? 0))
             + 128 * Z.b2z (out >? 0)
    /\ (sqw = 32 -> out = Z.b2z true -> reg = 0x93)
    /\ (sqw = 0 -> out = 1 -> reg = 0x80)
    /\ (sqw = 0 -> out = 0 -> reg = 0x00).
Proof.
  unfold square_wave, bind, gets, lift, bus, writeto_mem, bytearray_of.
  destruct (out >? 0) eqn:Eout;
    simpl in Hsqw;
    destruct Hsqw as [H | [H | [H | [H | [H | []]]]]]; subst sqw;
    (eexists; split; [reflexivity|]);
    repeat split; try reflexivity;
    intros; try discriminate; subst; try discriminate; reflexivity.
Qed.

Lemma square_wave_control_byte_witness :
  trace (_i2c (snd (square_wave 32 1 (fresh [])))) = [WriteMem 104 7 [0x93]].
Proof.
  destruct (square_wave_control_byte (fresh []) 32 1 ltac:(simpl; tauto))
    as [reg [Hrun [_ [_ [_ [_ [_ [H93 _]]]]]]]].
  rewrite Hrun, (H93 eq_refl eq_refl). reflexivity.
Defined.

(** ** Writing the datetime *)

Lemma setitem_ok (buf : list Z) (i : nat) (v : Z) :
  (i < List.length buf)%nat -> 0 <= v < 256 ->
  setitem buf i v = Ok (list_set buf i v).
Proof.
  intros Hi Hv. unfold setitem.
  apply Nat.ltb_lt in Hi. rewrite Hi, (byte_ok_true v Hv). reflexivity.
Qed.

Lemma setitem_bcd (buf : list Z) (i : nat) (v : Z) :
  (i < List.length buf)%nat -> 0 <= v <= 99 ->
  setitem buf i (_dec_to_bcd v) = Ok (list_set buf i (_dec_to_bcd v)).
Proof.
  intros Hi Hv. apply setitem_ok; [exact Hi|].
  pose proof (dec_to_bcd_byte v Hv). lia.
Qed.

Lemma land_0x7F_small (x : Z) : 0 <= x < 128 -> Z.land x 0x7F = x.
Proof.
  intros Hx. change 0x7F with (Z.ones 7).
  rewrite Z.land_ones by lia. apply Z.mod_small. simpl. lia.
Qed.

Lemma land_0x7F_bit7 (x : Z) : Z.testbit (Z.land x 0x7F) 7 = false.
Proof. rewrite Z.land_spec. apply andb_false_r. Qed.

Lemma land_0x7F_range (x : Z) : 0 <= Z.land x 0x7F < 128.
Proof.
  change 0x7F with (Z.ones 7). rewrite Z.land_ones by lia.
  apply Z.mod_pos_bound. reflexivity.
Qed.

Lemma dec_to_bcd_second (sec : Z) : 0 <= sec <= 59 -> 0 <= _dec_to_bcd sec < 128.
Proof.
  intros Hs. rewrite dec_to_bcd_arith.
  pose proof (Z.mod_pos_bound sec 10 ltac:(lia)).
  assert (0 <= sec / 10 < 6).
  { split; [apply Z.div_pos; lia | apply Z.div_lt_upper_bound; lia]. }
  lia.
Qed.

Lemma getitem_lit (what : string) (l : list Z) (i v : Z) :
  nth_error l (Z.to_nat i) = Some v -> 0 <= i -> getitem what l i = Ok v.
Proof.
  intros Hnth Hi. unfold getitem. cbv zeta.
  assert (Hn : (i <? 0) = false) by (apply Z.ltb_ge; lia).
  rewrite !Hn, Hnth. reflexivity.
Qed.

(** One step of running a method by hand: compute, then resolve the
    next index or byte store. *)
Ltac run_step :=
  progress
    (cbn -[_dec_to_bcd _bcd_to_dec setitem getitem Z.land Z.lor Z.lnot
           store day_of_year];
     try (erewrite getitem_lit; [| reflexivity | lia]);
     try (rewrite setitem_bcd by (simpl; lia))).

(** What the setter does over a well-formed tuple: [b0] is the seconds
    byte before the halt flag is put in. *)
Lemma set_datetime_run (s : Self) (y mo d h mi sec wd yd : Z) :
  0 <= y - 2000 <= 99 -> 0 <= mo <= 99 -> 0 <= d <= 99 -> 0 <= h <= 99 ->
  0 <= mi <= 99 -> 0 <= wd + _weekday_start s <= 99 ->
  let b0 := Z.land (_dec_to_bcd sec) 0x7F in
  let buf := [ if _halt s then Z.lor b0 128 else b0;
               _dec_to_bcd mi; _dec_to_bcd h;
               _dec_to_bcd (wd + _weekday_start s);
               _dec_to_bcd d; _dec_to_bcd mo; _dec_to_bcd (y - 2000) ] in
  set_datetime [y; mo; d; h; mi; sec; wd; yd] s
  = (Ok tt,
     {| _addr := _addr s;
        _i2c := {| mem := store (mem (_i2c s)) 0 buf;
                   trace := trace (_i2c s) ++ [WriteMem (_addr s) 0 buf] |};
        _weekday_start := _weekday_start s;
        _halt := _halt s |}).
Proof.
  intros Hy Hmo Hd Hh Hmi Hwd b0 buf. subst b0 buf.
  pose proof (land_0x7F_range (_dec_to_bcd sec)) as Hb0.
  unfold set_datetime, bind, lift, gets, bus, ret, bytearray.
  repeat run_step.
  rewrite setitem_ok by (simpl; lia).
  repeat run_step.
  destruct (_halt s) eqn:Eh.
  - repeat run_step.
    rewrite setitem_ok by first [apply set_bit7_byte; lia | simpl; lia].
    cbn. rewrite ?Eh. reflexivity.
  - cbn. rewrite ?Eh. reflexivity.
Qed.

(** C6: writing a well-formed datetime issues one bus transaction, a
    write of seven bytes at register 0; bit 7 of the seconds byte is the
    cached halt flag and its other bits are the BCD seconds, the weekday
    byte is the BCD of weekday plus weekday start; with the halt flag off
    and weekday start 0, (2023, 5, 29, 20, 45, 59, 3, 149) is written as
    89, 69, 32, 3, 41, 5, 35. *)
Theorem set_datetime_bytes (s : Self) (y mo d h mi sec wd yd : Z)
  (Hy : 2000 <= y <= 2099) (Hmo : 1 <= mo <= 12) (Hd : 1 <= d <= 31)
  (Hh : 0 <= h <= 23) (Hmi : 0 <= mi <= 59) (Hsec : 0 <= sec <= 59)
  (Hwd : 0 <= wd <= 6) (Hws : 0 <= _weekday_start s <= 6) :
  (exists b0 : Z,
     let buf := [ b0; _dec_to_bcd mi; _dec_to_bcd h;
                  _dec_to_bcd (wd + _weekday_start s);
                  _dec_to_bcd d; _dec_to_bcd mo; _dec_to_bcd (y - 2000) ] in
     set_datetime [y; mo; d; h; mi; sec; wd; yd] s
     = (Ok tt,
        {| _addr := _addr s;
           _i2c := {| mem := store (mem (_i2c s)) 0 buf;
                      trace := trace (_i2c s) ++ [WriteMem (_addr s) 0 buf] |};
           _weekday_start := _weekday_start s;
           _halt := _halt s |})
     /\ Z.testbit b0 7 = _halt s
     /\ Z.land b0 0x7F = _dec_to_bcd sec)
  /\ (_halt s = false -> _weekday_start s = 0 ->
      trace (_i2c (snd (set_datetime [2023; 5; 29; 20; 45; 59; 3; 149] s)))
      = trace (_i2c s) ++ [WriteMem (_addr s) 0 [89; 69; 32; 3; 41; 5; 35]]).
Proof.
  split.
  - pose proof (set_datetime_run s y mo d h mi sec wd yd
                  ltac:(lia) ltac:(lia) ltac:(lia) ltac:(lia) ltac:(lia)
                  ltac:(lia)) as Hrun.
    cbv zeta in Hrun.
    pose proof (dec_to_bcd_second sec Hsec) as Hbcd.
    rewrite (land_0x7F_small _ Hbcd) in Hrun.
    exists (if _halt s then Z.lor (_dec_to_bcd sec) 128 else _dec_to_bcd sec).
    cbv zeta. split; [exact Hrun|].
    destruct (_halt s).
    + split.
      * rewrite set_bit7_bits. apply orb_true_r.
      * apply Z.bits_inj'. intros n Hn.
        change 0x7F with (Z.ones 7).
        rewrite Z.land_ones, Z.testbit_mod_pow2, set_bit7_bits by lia.
        destruct (Z.ltb_spec n 7) as [Hlt | Hge]; simpl.
        -- replace (n =? 7) with false by (symmetry; apply Z.eqb_neq; lia).
           apply orb_false_r.
        -- symmetry. apply (byte_bits_high_7 _ n Hbcd Hge).
    + split.
      * rewrite <- (land_0x7F_small _ Hbcd). apply land_0x7F_bit7.
      * apply land_0x7F_small. exact Hbcd.
  - intros Hhalt Hstart.
    pose proof (set_datetime_run s 2023 5 29 20 45 59 3 149
                  ltac:(lia) ltac:(lia) ltac:(lia) ltac:(lia) ltac:(lia)
                  ltac:(lia)) as Hrun.
    cbv zeta in Hrun. rewrite Hrun, Hhalt, Hstart. reflexivity.
Qed.

Lemma set_datetime_bytes_witness :
  trace (_i2c (snd (set_datetime [2023; 5; 29; 20; 45; 59; 3; 149]
                                 (fresh []))))
  = [WriteMem 104 0 [89; 69; 32; 3; 41; 5; 35]].
Proof.
  destruct (set_datetime_bytes (fresh []) 2023 5 29 20 45 59 3 149
              ltac:(lia) ltac:(lia) ltac:(lia) ltac:(lia) ltac:(lia)
              ltac:(lia) ltac:(lia) ltac:(simpl; lia)) as [_ H].
  apply (H eq_refl eq_refl).
Defined.

(** ** Reading the datetime *)

Lemma readfrom_mem_7 (a : Z) (b : I2C) :
  readfrom_mem a DATETIME_REG 7 b
  = ([mem b 0; mem b 1; mem b 2; mem b 3; mem b 4; mem b 5; mem b 6],
     mkI2C (mem b) (trace b ++ [ReadMem a 0 7])).
Proof. reflexivity. Qed.

(** What the getter does: one read of seven bytes at register 0, then the
    decoding; it raises only if [day_of_year] does. *)
Lemma datetime_run (s : Self) :
  let r := mem (_i2c s) in
  let year := _bcd_to_dec (r 6) + 2000 in
  let month := _bcd_to_dec (r 5) in
  let day := _bcd_to_dec (r 4) in
  datetime s
  = (rbind (day_of_year year month day)
           (fun yearday =>
              Ok [ year; month; day;
                   _bcd_to_dec (r 2); _bcd_to_dec (r 1);
                   _bcd_to_dec (Z.land (r 0) 0x7F);
                   _bcd_to_dec (r 3 - _weekday_start s);
                   yearday ]),
     {| _addr := _addr s;
        _i2c := {| mem := mem (_i2c s);
                   trace := trace (_i2c s) ++ [ReadMem (_addr s) 0 7] |};
        _weekday_start := _weekday_start s;
        _halt := _halt s |}).
Proof.
  cbv zeta.
  unfold datetime, bind, lift, gets, bus, ret.
  rewrite readfrom_mem_7.
  repeat run_step.
  destruct (day_of_year _ _ _); reflexivity.
Qed.

(** Writing a well-formed datetime and reading it back: the six clock
    fields come back as written; the weekday comes back as the decoding
    of (BCD of weekday plus weekday start) minus weekday start. *)
Lemma datetime_written_then_read (s : Self) (y mo d h mi sec wd yd : Z) :
  2000 <= y <= 2099 -> 1 <= mo <= 12 -> 1 <= d <= 31 ->
  0 <= h <= 23 -> 0 <= mi <= 59 -> 0 <= sec <= 59 ->
  0 <= wd <= 6 -> 0 <= _weekday_start s <= 6 ->
  fst (bind (set_datetime [y; mo; d; h; mi; sec; wd; yd])
            (fun _ => datetime) s)
  = Ok [ y; mo; d; h; mi; sec;
         _bcd_to_dec (_dec_to_bcd (wd + _weekday_start s) - _weekday_start s);
         day_of_year_spec y mo d ].
Proof.
  intros Hy Hmo Hd Hh Hmi Hsec Hwd Hws.
  pose proof (set_datetime_run s y mo d h mi sec wd yd
                ltac:(lia) ltac:(lia) ltac:(lia) ltac:(lia) ltac:(lia)
                ltac:(lia)) as Hrun.
  cbv zeta in Hrun.
  unfold bind at 1. rewrite Hrun.
  rewrite datetime_run.
  cbn -[_dec_to_bcd _bcd_to_dec Z.land Z.lor day_of_year].
  rewrite !bcd_to_dec_dec_to_bcd.
  replace (y - 2000 + 2000) with y by lia.
  rewrite day_of_year_upto_13 by lia. cbn [rbind fst].
  pose proof (dec_to_bcd_second sec Hsec) as Hbcd.
  assert (Hs : Z.land (if _halt s
                       then Z.lor (Z.land (_dec_to_bcd sec) 127) 128
                       else Z.land (_dec_to_bcd sec) 127) 127
               = _dec_to_bcd sec).
  { rewrite (land_0x7F_small _ Hbcd).
    destruct (_halt s); [|apply land_0x7F_small; exact Hbcd].
    apply Z.bits_inj'. intros n Hn.
    change 127 with (Z.ones 7).
    rewrite Z.land_ones, Z.testbit_mod_pow2, set_bit7_bits by lia.
    destruct (Z.ltb_spec n 7) as [Hlt | Hge]; simpl.
    - replace (n =? 7) with false by (symmetry; apply Z.eqb_neq; lia).
      apply orb_false_r.
    - symmetry. apply (byte_bits_high_7 _ n Hbcd Hge). }
  rewrite Hs, bcd_to_dec_dec_to_bcd. reflexivity.
Qed.

(** Where the weekday does come back: weekday plus weekday start is a
    single decimal digit. *)
Lemma weekday_back_when_one_digit (wd ws : Z) :
  0 <= wd -> 0 <= ws -> wd + ws <= 9 ->
  _bcd_to_dec (_dec_to_bcd (wd + ws) - ws) = wd.
Proof.
  intros Hwd Hws Hsum.
  rewrite dec_to_bcd_arith.
  rewrite (Z.div_small (wd + ws) 10), (Z.mod_small (wd + ws) 10) by lia.
  replace (0 * 16 + (wd + ws) - ws) with wd by lia.
  unfold _bcd_to_dec. rewrite shiftr4_div, land15_mod.
  rewrite Z.div_small, Z.mod_small by lia. lia.
Qed.

(** Where the getter agrees with decoding first: the raw weekday byte is
    a digit not below the weekday start. *)
Lemma weekday_decoded_when_not_below (w ws : Z) :
  0 <= ws <= w -> w <= 9 ->
  _bcd_to_dec (w - ws) = _bcd_to_dec w - ws.
Proof.
  intros Hws Hw.
  unfold _bcd_to_dec. rewrite !shiftr4_div, !land15_mod.
  rewrite !Z.div_small, !Z.mod_small by lia. lia.
Qed.

(** C1: a datetime written and read back. With weekday start 4, writing
    (2023, 5, 29, 20, 45, 59, 6, 149) stores the weekday byte 0x10 (BCD of
    10) and reading decodes 0x10 - 4 = 12: the six clock fields come back,
    the weekday comes back as 12 instead of 6, and 12 is not 6 modulo 7 or
    modulo the weekday start either. *)
Theorem datetime_roundtrip_weekday_lost :
  fst (set_weekday_start 4 (fresh [])) = Ok tt
  /\ trace (_i2c (snd (set_datetime [2023; 5; 29; 20; 45; 59; 6; 149]
                         (snd (set_weekday_start 4 (fresh []))))))
     = [WriteMem 104 0 [89; 69; 32; 16; 41; 5; 35]]
  /\ fst (bind (set_datetime [2023; 5; 29; 20; 45; 59; 6; 149])
               (fun _ => datetime)
               (snd (set_weekday_start 4 (fresh []))))
     = Ok [2023; 5; 29; 20; 45; 59; 12; 149]
  /\ 12 mod 7 <> 6 mod 7
  /\ 12 mod 4 <> 6 mod 4.
Proof.
  repeat split; intro H; discriminate H.
Qed.

(** C3: the weekday the getter returns against decoding the raw byte and
    then subtracting. With raw weekday byte 1 and weekday start 2 the
    getter decodes 1 - 2 = -1 as (-1 >> 4) * 10 + (-1 & 15) = 5, while
    BCDToDecimal(1) - 2 is -1. *)
Theorem getter_weekday_subtracts_before_decoding :
  fst (set_weekday_start 2 (fresh [89; 69; 32; 1; 41; 5; 35])) = Ok tt
  /\ fst (datetime
            (snd (set_weekday_start 2 (fresh [89; 69; 32; 1; 41; 5; 35]))))
     = Ok [2023; 5; 29; 20; 45; 59; 5; 149]
  /\ _bcd_to_dec 1 - 2 = -1
  /\ _bcd_to_dec (1 - 2) = 5.
Proof.
  repeat split.
Qed.

(** The properties against the tuple of the same registers: seven of
    them return their own component, [weekday] returns component 5. *)
Lemma properties_index_datetime (s : Self) (t : list Z) :
  fst (datetime s) = Ok t ->
  fst (year s) = getitem "tuple" t 0
  /\ fst (month s) = getitem "tuple" t 1
  /\ fst (day s) = getitem "tuple" t 2
  /\ fst (hour s) = getitem "tuple" t 3
  /\ fst (minute s) = getitem "tuple" t 4
  /\ fst (second s) = getitem "tuple" t 5
  /\ fst (weekday s) = getitem "tuple" t 5
  /\ fst (yearday s) = getitem "tuple" t 7.
Proof.
  unfold year, month, day, hour, minute, second, weekday, yearday, bind, lift.
  destruct (datetime s) as [[t' | e] s']; simpl; intros H;
    [injection H as ->; repeat split | discriminate H].
Qed.

(** C5: the [weekday] property indexes the tuple at 5, the seconds. On
    the registers 89, 69, 32, 3, 41, 5, 35 the tuple is
    (2023, 5, 29, 20, 45, 59, 3, 149) and [weekday] returns 59, not 3; on
    every instance it returns what [second] returns. *)
Theorem weekday_property_returns_second :
  fst (datetime (fresh [89; 69; 32; 3; 41; 5; 35]))
  = Ok [2023; 5; 29; 20; 45; 59; 3; 149]
  /\ fst (weekday (fresh [89; 69; 32; 3; 41; 5; 35])) = Ok 59
  /\ getitem "tuple" [2023; 5; 29; 20; 45; 59; 3; 149] 6 = Ok 3
  /\ (forall s : Self, weekday s = second s).
Proof.
  repeat split.
Qed.

(** * Further properties of the driver *)

(** ** The BCD helpers on all integers *)

(** X1: decoding inverts encoding on every integer, also above 99 and
    below 0, where the encoding no longer fits a byte. *)
Theorem bcd_decode_encode_any (v : Z) : _bcd_to_dec (_dec_to_bcd v) = v.
Proof. apply bcd_to_dec_dec_to_bcd. Qed.

Lemma byte_ok_iff (x : Z) : byte_ok x = true <-> 0 <= x < 256.
Proof.
  unfold byte_ok. rewrite andb_true_iff, Z.leb_le, Z.ltb_lt. reflexivity.
Qed.

Lemma bcd_field_ok_iff (v : Z) : bcd_field_ok v = true <-> 0 <= v <= 159.
Proof.
  unfold bcd_field_ok. rewrite andb_true_iff, !Z.leb_le. reflexivity.
Qed.

Lemma byte_ok_dec_to_bcd (v : Z) : byte_ok (_dec_to_bcd v) = bcd_field_ok v.
Proof.
  apply eq_true_iff_eq.
  rewrite byte_ok_iff, bcd_field_ok_iff, dec_to_bcd_arith.
  pose proof (Z.mod_pos_bound v 10 ltac:(lia)) as Hr.
  pose proof (Z.div_mod v 10 ltac:(lia)) as Hv.
  lia.
Qed.

(** X2: the encoding of any integer has the quotient by ten above its low
    nibble and the remainder in it, and it is a byte exactly for the
    integers 0..159. *)
Theorem dec_to_bcd_nibbles (v : Z) :
  Z.shiftr (_dec_to_bcd v) 4 = v / 10
  /\ Z.land (_dec_to_bcd v) 15 = v mod 10
  /\ byte_ok (_dec_to_bcd v) = bcd_field_ok v.
Proof.
  pose proof (Z.mod_pos_bound v 10 ltac:(lia)) as Hr.
  rewrite shiftr4_div, land15_mod, dec_to_bcd_arith.
  split; [|split].
  - rewrite Z.div_add_l by lia.
    rewrite (Z.div_small (v mod 10) 16) by lia. lia.
  - rewrite (Z.add_comm (v / 10 * 16)), Z.mod_add by lia.
    apply Z.mod_small. lia.
  - rewrite <- dec_to_bcd_arith. apply byte_ok_dec_to_bcd.
Qed.




(** ** Leap years and the day of the year *)

(** X4: from 1901 to 2099 the test [year % 4 == 0] is the Gregorian leap
    year rule, on the year itself and on the year counted from 2000 as
    [day_of_year] passes it; 2100 is the first year after 2000 where the
    two part. *)
Theorem is_leap_year_gregorian (year : Z) (Hy : 1901 <= year <= 2099) :
  is_leap_year year = gregorian_leap year
  /\ is_leap_year (year - 2000) = gregorian_leap year
  /\ is_leap_year 2100 = true /\ gregorian_leap 2100 = false.
Proof.
  assert (H : is_leap_year year = gregorian_leap year).
  { unfold is_leap_year, gregorian_leap.
    destruct (Z.eqb_spec (year mod 400) 0) as [H400 | H400].
    - rewrite orb_true_r, andb_true_r. reflexivity.
    - destruct (Z.eqb_spec (year mod 100) 0) as [H100 | H100].
      + exfalso.
        pose proof (Z.div_mod year 100 ltac:(lia)) as Hd.
        assert (year = 2000) by lia. subst year. apply H400. reflexivity.
      + simpl. rewrite andb_true_r. reflexivity. }
  split; [exact H|].
  split; [rewrite is_leap_year_since_2000; exact H|].
  split; reflexivity.
Qed.

Lemma is_leap_year_gregorian_witness :
  is_leap_year 2024 = gregorian_leap 2024
  /\ is_leap_year (2024 - 2000) = gregorian_leap 2024
  /\ is_leap_year 2100 = true /\ gregorian_leap 2100 = false.
Proof.
  apply (is_leap_year_gregorian 2024). lia.
Defined.

Lemma for_in_table_overrun (l : list Z) : forall (n k : nat) (acc : Z),
  (k <= List.length l < k + n)%nat ->
  for_in (map (fun i => 1 + Z.of_nat i) (seq k n))
         (fun x days16 =>
            rbind (getitem "list" l (x - 1)) (fun d => Ok (days16 + d)))
         acc
  = Raise (IndexError "list index out of range").
Proof.
  induction n as [|n IH]; intros k acc Hk; [lia|].
  cbn [seq map for_in].
  replace (1 + Z.of_nat k - 1) with (Z.of_nat k) by lia.
  destruct (Nat.eq_dec k (List.length l)) as [Heq | Hne].
  - unfold getitem. cbv zeta.
    assert (Hn : (Z.of_nat k <? 0) = false) by (apply Z.ltb_ge; lia).
    rewrite !Hn, Nat2Z.id.
    assert (Hnone : nth_error l k = None) by (apply nth_error_None; lia).
    rewrite Hnone. reflexivity.
  - rewrite getitem_nth by lia. cbn [rbind].
    apply IH. lia.
Qed.

Lemma day_of_year_from_14 (year month day : Z) :
  14 <= month ->
  day_of_year year month day = Raise (IndexError "list index out of range").
Proof.
  intros Hm. unfold day_of_year, range.
  rewrite (for_in_table_overrun month_days (Z.to_nat (month - 1)) 0 day).
  - reflexivity.
  - change (List.length month_days) with 12%nat. lia.
Qed.

(** X5: [day_of_year] on any month: up to 13 (also 0 and below, where the
    loop does not run, and 13, where it adds the whole table) it returns
    the sum of the month lengths before the month, plus the day, plus the
    leap day; from 14 on it raises [IndexError], the loop running off the
    table of twelve months. *)
Theorem day_of_year_any_month (year month day : Z) :
  day_of_year year month day
  = if month <=? 13 then Ok (day_of_year_spec year month day)
    else Raise (IndexError "list index out of range").
Proof.
  destruct (Z.leb_spec month 13) as [Hle | Hgt].
  - apply day_of_year_upto_13. exact Hle.
  - apply day_of_year_from_14. lia.
Qed.

Lemma sum_firstn_month_days (month : Z) :
  1 <= month <= 12 ->
  0 <= sum_Z (firstn (Z.to_nat (month - 1)) month_days) <= 334
  /\ (month = 1 -> sum_Z (firstn (Z.to_nat (month - 1)) month_days) = 0).
Proof.
  intros Hm.
  assert (Hc : month = 1 \/ month = 2 \/ month = 3 \/ month = 4 \/ month = 5
               \/ month = 6 \/ month = 7 \/ month = 8 \/ month = 9
               \/ month = 10 \/ month = 11 \/ month = 12) by lia.
  repeat (destruct Hc as [Hc | Hc]; [subst month; vm_compute; intuition congruence|]).
  subst month; vm_compute; intuition congruence.
Qed.

(** X6: for a month in 1..12 and a day in 1..31 the day of the year lies
    in 1..366. *)
Theorem day_of_year_range (year month day : Z)
  (Hm : 1 <= month <= 12) (Hd : 1 <= day <= 31) :
  exists n : Z, day_of_year year month day = Ok n /\ 1 <= n <= 366.
Proof.
  rewrite day_of_year_upto_13 by lia.
  eexists. split; [reflexivity|].
  unfold day_of_year_spec. fold month_days.
  destruct (sum_firstn_month_days month Hm) as [Hsum _].
  destruct ((2 <=? month) && (year mod 4 =? 0)); lia.
Qed.

Lemma day_of_year_range_witness :
  exists n : Z, day_of_year 2024 12 31 = Ok n /\ 1 <= n <= 366.
Proof.
  apply (day_of_year_range 2024 12 31); lia.
Defined.

(** X7: in a year divisible by four the leap day is added from February
    on, not from March on: every February date is numbered one too high,
    and February 29 gets the number of March 1, 61. *)
Theorem day_of_year_leap_february (year day : Z) (Hy : year mod 4 = 0) :
  day_of_year year 2 day = Ok (31 + day + 1)
  /\ day_of_year year 2 29 = Ok 61
  /\ day_of_year year 3 1 = Ok 61.
Proof.
  rewrite !day_of_year_upto_13 by lia.
  unfold day_of_year_spec. rewrite Hy.
  repeat split; simpl; f_equal; unfold sum_Z; simpl; lia.
Qed.

Lemma day_of_year_leap_february_witness :
  day_of_year 2024 2 1 = Ok (31 + 1 + 1)
  /\ day_of_year 2024 2 29 = Ok 61
  /\ day_of_year 2024 3 1 = Ok 61.
Proof.
  apply (day_of_year_leap_february 2024 1). reflexivity.
Defined.

(** ** The configuration of an instance *)

Section Keeps.

Context {B : Type} (f : Self -> B).
Hypothesis f_bus : forall a b b' w h, f (mkSelf a b w h) = f (mkSelf a b' w h).
Hypothesis f_halt : forall a b w h h', f (mkSelf a b w h) = f (mkSelf a b w h').

Lemma keeps_ret {A : Type} (a : A) : keeps f (ret a).
Proof. intro s. reflexivity. Qed.

Lemma keeps_raise {A : Type} (e : Exn) : keeps f (@raise A e).
Proof. intro s. reflexivity. Qed.

Lemma keeps_lift {A : Type} (r : Result A) : keeps f (lift r).
Proof. intro s. reflexivity. Qed.

Lemma keeps_gets {A : Type} (g : Self -> A) : keeps f (gets g).
Proof. intro s. reflexivity. Qed.

Lemma keeps_bus {A : Type} (op : I2C -> A * I2C) : keeps f (bus op).
Proof.
  intro s. unfold bus. destruct (op (_i2c s)) as [a b].
  destruct s as [a0 b0 w0 h0]. simpl. apply f_bus.
Qed.

Lemma keeps_set_halt_attr (v : bool) : keeps f (set_halt_attr v).
Proof. intro s. destruct s as [a0 b0 w0 h0]. simpl. apply f_halt. Qed.

Lemma keeps_bind {A C : Type} (m : M A) (k : A -> M C) :
  keeps f m -> (forall a, keeps f (k a)) -> keeps f (bind m k).
Proof.
  intros Hm Hk s. unfold bind.
  specialize (Hm s).
  destruct (m s) as [[a | e] s']; simpl in Hm |- *.
  - rewrite Hk. exact Hm.
  - exact Hm.
Qed.

Ltac keeps_step :=
  match goal with
  | |- keeps f (bind _ _) => apply keeps_bind; [|intro]
  | |- keeps f (if ?b then _ else _) => destruct b
  | |- keeps f _ =>
      first [ apply keeps_ret | apply keeps_raise | apply keeps_lift
            | apply keeps_gets | apply keeps_bus | apply keeps_set_halt_attr ]
  end.

Lemma keeps_datetime : keeps f datetime.
Proof. unfold datetime. repeat keeps_step. Qed.

Lemma keeps_set_datetime (t : list Z) : keeps f (set_datetime t).
Proof. unfold set_datetime. repeat keeps_step. Qed.

Lemma keeps_set_halt (v : bool) : keeps f (set_halt v).
Proof. unfold set_halt. repeat keeps_step. Qed.

Lemma keeps_square_wave (q o : Z) : keeps f (square_wave q o).
Proof. unfold square_wave. repeat keeps_step. Qed.

Lemma keeps_index (i : Z) :
  keeps f (bind datetime (fun t => lift (getitem "tuple" t i))).
Proof.
  apply keeps_bind; [apply keeps_datetime | intro; apply keeps_lift].
Qed.

(** Every call but a write of the weekday start keeps the reading. *)
Lemma call_keeps (c : Call) (s : Self) :
  (forall v, c <> SetWeekdayStart v) -> f (call c s) = f s.
Proof.
  intros Hc. destruct c; simpl; try reflexivity;
    first [ apply keeps_datetime
          | apply keeps_set_datetime
          | apply keeps_set_halt
          | apply keeps_square_wave
          | apply (keeps_index _ s)
          | exfalso; eapply Hc; reflexivity ].
Qed.

End Keeps.

Lemma set_weekday_start_run (v : Z) (s : Self) :
  set_weekday_start v s
  = if (0 <=? v) && (v <=? 6)
    then (Ok tt, mkSelf (_addr s) (_i2c s) v (_halt s))
    else (Raise (ValueError "Weekday can only be in range 0-6"), s).
Proof.
  unfold set_weekday_start. destruct ((0 <=? v) && (v <=? 6)); reflexivity.
Qed.

(** X8: a weekday start in 0..6 is stored without any bus transaction and
    is what the getter returns from then on; the address, the bus and the
    halt flag are untouched. *)
Theorem set_weekday_start_stores (s : Self) (value : Z)
  (Hvalue : 0 <= value <= 6) :
  set_weekday_start value s
  = (Ok tt, mkSelf (_addr s) (_i2c s) value (_halt s))
  /\ fst (bind (set_weekday_start value) (fun _ => weekday_start) s)
     = Ok value
  /\ trace (_i2c (snd (set_weekday_start value s))) = trace (_i2c s).
Proof.
  assert (Hc : (0 <=? value) && (value <=? 6) = true).
  { apply andb_true_intro. split; apply Z.leb_le; lia. }
  unfold bind. rewrite set_weekday_start_run, Hc. repeat split.
Qed.

Lemma set_weekday_start_stores_witness :
  set_weekday_start 6 (fresh [])
  = (Ok tt, mkSelf (_addr (fresh [])) (_i2c (fresh [])) 6 (_halt (fresh [])))
  /\ fst (bind (set_weekday_start 6) (fun _ => weekday_start) (fresh []))
     = Ok 6
  /\ trace (_i2c (snd (set_weekday_start 6 (fresh []))))
     = trace (_i2c (fresh [])).
Proof.
  apply (set_weekday_start_stores (fresh []) 6). lia.
Defined.

Lemma call_keeps_addr (c : Call) (s : Self) : _addr (call c s) = _addr s.
Proof.
  destruct c; try (apply (call_keeps _addr); [reflexivity | reflexivity | discriminate]).
  simpl. rewrite set_weekday_start_run.
  destruct ((0 <=? value) && (value <=? 6)); reflexivity.
Qed.

Lemma call_weekday_start_range (c : Call) (s : Self) :
  0 <= _weekday_start s <= 6 -> 0 <= _weekday_start (call c s) <= 6.
Proof.
  intros Hs.
  destruct c;
    try (rewrite (call_keeps _weekday_start);
         [exact Hs | reflexivity | reflexivity | discriminate]).
  simpl. rewrite set_weekday_start_run.
  destruct (Z.leb_spec 0 value), (Z.leb_spec value 6); simpl; lia.
Qed.

(** X9: whatever is called on an instance, and whether the calls return
    or raise, its bus address never changes and a weekday start in 0..6
    stays in 0..6. *)
Theorem configuration_kept (cs : list Call) (s : Self)
  (Hs : 0 <= _weekday_start s <= 6) :
  _addr (calls cs s) = _addr s
  /\ 0 <= _weekday_start (calls cs s) <= 6.
Proof.
  unfold calls. revert s Hs.
  induction cs as [|c cs IH]; intros s Hs; simpl; [split; [reflexivity | exact Hs]|].
  destruct (IH (call c s) (call_weekday_start_range c s Hs)) as [Ha Hw].
  split; [rewrite Ha; apply call_keeps_addr | exact Hw].
Qed.

Lemma configuration_kept_witness :
  _addr (calls [SetWeekdayStart 9; SetWeekdayStart 3; SetHalt true;
                SetDatetime [1999; 1; 1]; SquareWave 2 0; GetYear]
               (fresh [0x59; 0; 0; 0; 1; 0x14; 0]))
  = _addr (fresh [0x59; 0; 0; 0; 1; 0x14; 0])
  /\ 0 <= _weekday_start
            (calls [SetWeekdayStart 9; SetWeekdayStart 3; SetHalt true;
                    SetDatetime [1999; 1; 1]; SquareWave 2 0; GetYear]
                   (fresh [0x59; 0; 0; 0; 1; 0x14; 0])) <= 6.
Proof.
  apply configuration_kept. simpl. lia.
Defined.

(** ** Reading the datetime from any registers *)

(** X10: the datetime getter on any register contents. It issues one
    read of seven bytes at register 0 and changes nothing else, also when
    it raises; it returns the decoded tuple when the month register
    decodes to at most 13 and raises [IndexError] when it decodes to 14 or
    more (as the BCD byte 0x14 does), since the day of the year is
    computed from the decoded month. *)
Theorem datetime_any_registers (s : Self) :
  let r := mem (_i2c s) in
  let year := _bcd_to_dec (r 6) + 2000 in
  let month := _bcd_to_dec (r 5) in
  let day := _bcd_to_dec (r 4) in
  datetime s
  = (if month <=? 13
     then Ok [ year; month; day;
               _bcd_to_dec (r 2); _bcd_to_dec (r 1);
               _bcd_to_dec (Z.land (r 0) 0x7F);
               _bcd_to_dec (r 3 - _weekday_start s);
               day_of_year_spec year month day ]
     else Raise (IndexError "list index out of range"),
     {| _addr := _addr s;
        _i2c := {| mem := mem (_i2c s);
                   trace := trace (_i2c s) ++ [ReadMem (_addr s) 0 7] |};
        _weekday_start := _weekday_start s;
        _halt := _halt s |}).
Proof.
  cbv zeta. rewrite datetime_run. cbv zeta.
  destruct (Z.leb_spec (_bcd_to_dec (mem (_i2c s) 5)) 13) as [Hle | Hgt].
  - rewrite day_of_year_upto_13 by exact Hle. reflexivity.
  - rewrite day_of_year_from_14 by lia. reflexivity.
Qed.

(** ** Writing the datetime from any tuple *)

Lemma store_outside (buf : list Z) : forall (m : Z -> Z) (a r : Z),
  r < a \/ a + Z.of_nat (List.length buf) <= r -> store m a buf r = m r.
Proof.
  induction buf as [|b buf IH]; intros m a r Hr; [reflexivity|].
  cbn [store]. rewrite IH by (cbn [List.length] in Hr; lia).
  assert (Hne : (r =? a) = false).
  { apply Z.eqb_neq. cbn [List.length] in Hr. lia. }
  rewrite Hne. reflexivity.
Qed.

Ltac outcome_cbn :=
  cbn -[_dec_to_bcd byte_ok getitem Z.land Z.lor store forallb Z.testbit].

Ltac outcome_step :=
  match goal with
  | |- context [getitem "tuple" ?t ?i] =>
      destruct (getitem "tuple" t i); [|left; eexists; reflexivity]
  | |- context [byte_ok ?v] =>
      let E := fresh "Ebyte" in
      destruct (byte_ok v) eqn:E; [|left; eexists; reflexivity]
  end;
  outcome_cbn.

Lemma set_datetime_outcome (t : list Z) (s : Self) :
  (exists e, set_datetime t s = (Raise e, s))
  \/ (exists b0 b1 b2 b3 b4 b5 b6 : Z,
        forallb byte_ok [b0; b1; b2; b3; b4; b5; b6] = true
        /\ Z.testbit b0 7 = _halt s
        /\ set_datetime t s
           = (Ok tt,
              {| _addr := _addr s;
                 _i2c := {| mem := store (mem (_i2c s)) 0
                                         [b0; b1; b2; b3; b4; b5; b6];
                            trace := trace (_i2c s)
                                     ++ [WriteMem (_addr s) 0
                                           [b0; b1; b2; b3; b4; b5; b6]] |};
                 _weekday_start := _weekday_start s;
                 _halt := _halt s |})).
Proof.
  unfold set_datetime, bind, lift, gets, bus, ret, bytearray, setitem.
  outcome_cbn.
  repeat outcome_step.
  destruct (_halt s) eqn:Eh.
  - erewrite getitem_lit; [| reflexivity | lia].
    outcome_cbn.
    destruct (byte_ok (Z.lor _ 128)) eqn:Eset; [|left; eexists; reflexivity].
    right. do 7 eexists. split; [|split].
    3: rewrite ?Eh; reflexivity.
    + cbn [forallb].
      rewrite Eset, Ebyte0, Ebyte1, Ebyte2, Ebyte3, Ebyte4, Ebyte5.
      reflexivity.
    + rewrite set_bit7_bits. apply orb_true_r.
  - right. do 7 eexists. split; [|split].
    3: rewrite ?Eh; reflexivity.
    + cbn [forallb].
      rewrite Ebyte, Ebyte0, Ebyte1, Ebyte2, Ebyte3, Ebyte4, Ebyte5.
      reflexivity.
    + apply land_0x7F_bit7.
Qed.

(** X11: the datetime setter on any tuple is all or nothing. Either it
    raises and the instance, the chip and the list of bus transactions
    are exactly as before, or it returns after one single write of seven
    bytes at register 0, each byte in 0..255 and the first with the cached
    halt flag in bit 7, and changes no attribute. *)
Theorem set_datetime_all_or_nothing (t : list Z) (s : Self) :
  (exists e, set_datetime t s = (Raise e, s))
  \/ (exists buf : list Z,
        List.length buf = 7%nat
        /\ forallb byte_ok buf = true
        /\ Z.testbit (nth 0 buf 0) 7 = _halt s
        /\ set_datetime t s
           = (Ok tt,
              {| _addr := _addr s;
                 _i2c := {| mem := store (mem (_i2c s)) 0 buf;
                            trace := trace (_i2c s)
                                     ++ [WriteMem (_addr s) 0 buf] |};
                 _weekday_start := _weekday_start s;
                 _halt := _halt s |})).
Proof.
  destruct (set_datetime_outcome t s)
    as [Hraise | [b0 [b1 [b2 [b3 [b4 [b5 [b6 [Hbytes [Hbit Hrun]]]]]]]]]].
  - left. exact Hraise.
  - right. exists [b0; b1; b2; b3; b4; b5; b6].
    split; [reflexivity|]. split; [exact Hbytes|]. split; [exact Hbit|].
    exact Hrun.
Qed.

Lemma byte_ok_land_0x7F (x : Z) : byte_ok (Z.land x 0x7F) = true.
Proof. apply byte_ok_true. pose proof (land_0x7F_range x). lia. Qed.

Lemma byte_ok_set_halt_bit (x : Z) : byte_ok (Z.lor (Z.land x 0x7F) 128) = true.
Proof.
  apply byte_ok_true. apply set_bit7_byte.
  pose proof (land_0x7F_range x). lia.
Qed.

Ltac accepts_run :=
  cbn [andb];
  repeat (outcome_cbn;
          try (erewrite getitem_lit; [| reflexivity | lia]);
          rewrite ?byte_ok_land_0x7F, ?byte_ok_dec_to_bcd;
          repeat match goal with
                 | E : bcd_field_ok ?v = _ |- context [bcd_field_ok ?v] =>
                     rewrite E
                 end).

(** X12: which tuples the datetime setter takes, with the range check of
    a [bytearray] store. With seven leading elements it returns exactly
    when minute, hour, weekday plus weekday start, day, month and year
    minus 2000 all lie in 0..159, whose BCD encodings fit a byte;
    otherwise it raises [ValueError]. The seconds are masked to seven bits
    and never rejected, and the yearday and anything after it are never
    read. *)
Theorem set_datetime_accepts (s : Self) (y mo d h mi sec wd : Z)
  (rest : list Z) :
  fst (set_datetime (y :: mo :: d :: h :: mi :: sec :: wd :: rest) s)
  = if forallb bcd_field_ok
         [mi; h; wd + _weekday_start s; d; mo; y - 2000]
    then Ok tt
    else Raise (ValueError "byte must be in range(0, 256)").
Proof.
  unfold set_datetime, bind, lift, gets, bus, ret, bytearray, setitem.
  cbn [forallb].
  destruct (bcd_field_ok mi) eqn:E1; [|accepts_run; reflexivity].
  destruct (bcd_field_ok h) eqn:E2; [|accepts_run; reflexivity].
  destruct (bcd_field_ok (wd + _weekday_start s)) eqn:E3;
    [|accepts_run; reflexivity].
  destruct (bcd_field_ok d) eqn:E4; [|accepts_run; reflexivity].
  destruct (bcd_field_ok mo) eqn:E5; [|accepts_run; reflexivity].
  destruct (bcd_field_ok (y - 2000)) eqn:E6; [|accepts_run; reflexivity].
  accepts_run.
  destruct (_halt s); [rewrite byte_ok_set_halt_bit|]; reflexivity.
Qed.

Lemma getitem_short (what : string) (l : list Z) (i : Z) :
  0 <= i -> (List.length l <= Z.to_nat i)%nat ->
  getitem what l i = Raise (IndexError (what ++ " index out of range")).
Proof.
  intros Hi Hlen. unfold getitem. cbv zeta.
  assert (Hn : (i <? 0) = false) by (apply Z.ltb_ge; lia).
  rewrite !Hn.
  assert (Hnone : nth_error l (Z.to_nat i) = None)
    by (apply nth_error_None; exact Hlen).
  rewrite Hnone. reflexivity.
Qed.

(** X13: a tuple of fewer than seven elements is never written: the
    setter raises and leaves the instance and the bus as they were; with
    fewer than six elements the error is the [IndexError] of the first
    element read, the seconds at index 5. *)
Theorem set_datetime_short_tuple (t : list Z) (s : Self)
  (Hlen : (List.length t < 7)%nat) :
  (exists e, set_datetime t s = (Raise e, s))
  /\ ((List.length t < 6)%nat ->
      set_datetime t s = (Raise (IndexError "tuple index out of range"), s)).
Proof.
  split.
  - destruct (set_datetime_outcome t s)
      as [Hraise | [b0 [b1 [b2 [b3 [b4 [b5 [b6 [_ [_ Hrun]]]]]]]]]];
      [exact Hraise|].
    exfalso. revert Hrun.
    unfold set_datetime, bind, lift, gets, bus, ret, bytearray, setitem.
    outcome_cbn.
    repeat match goal with
           | |- context [getitem "tuple" t 6] =>
               rewrite (getitem_short "tuple" t 6) by (simpl; lia)
           | |- context [getitem "tuple" t ?i] =>
               destruct (getitem "tuple" t i); [|discriminate]
           | |- context [byte_ok ?v] =>
               destruct (byte_ok v); [|discriminate]
           end; outcome_cbn.
    discriminate.
  - intros Hlt.
    unfold set_datetime, bind, lift.
    rewrite (getitem_short "tuple" t 5) by (simpl; lia).
    reflexivity.
Qed.

Lemma set_datetime_short_tuple_witness :
  (exists e, set_datetime [2023; 5; 29] (fresh []) = (Raise e, fresh []))
  /\ ((List.length [2023; 5; 29] < 6)%nat ->
      set_datetime [2023; 5; 29] (fresh [])
      = (Raise (IndexError "tuple index out of range"), fresh [])).
Proof.
  apply (set_datetime_short_tuple [2023; 5; 29] (fresh [])).
  simpl. lia.
Defined.

(** X14: where the whole tuple survives a write and a read: for a
    well-formed datetime whose weekday plus the weekday start is at most
    9, reading after writing returns year, month, day, hour, minute,
    second and weekday as written, and the day of the year computed from
    the date, not the one passed in. *)
Theorem datetime_roundtrip_one_digit_weekday
  (s : Self) (y mo d h mi sec wd yd : Z)
  (Hy : 2000 <= y <= 2099) (Hmo : 1 <= mo <= 12) (Hd : 1 <= d <= 31)
  (Hh : 0 <= h <= 23) (Hmi : 0 <= mi <= 59) (Hsec : 0 <= sec <= 59)
  (Hwd : 0 <= wd <= 6) (Hws : 0 <= _weekday_start s <= 6)
  (Hsum : wd + _weekday_start s <= 9) :
  fst (bind (set_datetime [y; mo; d; h; mi; sec; wd; yd])
            (fun _ => datetime) s)
  = Ok [y; mo; d; h; mi; sec; wd; day_of_year_spec y mo d].
Proof.
  rewrite datetime_written_then_read by assumption.
  rewrite weekday_back_when_one_digit by lia.
  reflexivity.
Qed.

Lemma datetime_roundtrip_one_digit_weekday_witness :
  fst (bind (set_datetime [2024; 2; 29; 23; 59; 59; 6; 0])
            (fun _ => datetime)
            (snd (set_weekday_start 3 (fresh []))))
  = Ok [2024; 2; 29; 23; 59; 59; 6; day_of_year_spec 2024 2 29].
Proof.
  apply (datetime_roundtrip_one_digit_weekday
           (snd (set_weekday_start 3 (fresh []))) 2024 2 29 23 59 59 6 0);
    simpl; lia.
Defined.

(** ** How the operations compose *)

Lemma set_halt_run (s : Self) (value : bool) :
  0 <= mem (_i2c s) 0 < 256 ->
  set_halt value s
  = (Ok tt,
     {| _addr := _addr s;
        _i2c := {| mem := store (mem (_i2c s)) 0
                            [if value then Z.lor (mem (_i2c s) 0) 128
                             else Z.land (mem (_i2c s) 0) (Z.lnot 128)];
                   trace := trace (_i2c s)
                            ++ [ReadMem (_addr s) 0 1;
                                WriteMem (_addr s) 0
                                  [if value then Z.lor (mem (_i2c s) 0) 128
                                   else Z.land (mem (_i2c s) 0) (Z.lnot 128)]] |};
        _weekday_start := _weekday_start s;
        _halt := value |}).
Proof.
  intros Hbyte.
  assert (Hreg : byte_ok (if value then Z.lor (mem (_i2c s) 0) 128
                          else Z.land (mem (_i2c s) 0) (Z.lnot 128)) = true).
  { apply byte_ok_true.
    destruct value; [apply set_bit7_byte | apply clear_bit7_byte]; exact Hbyte. }
  unfold set_halt, bind, gets, bus, lift, set_halt_attr.
  rewrite readfrom_mem_1.
  cbn -[byte_ok Z.lor Z.land Z.lnot].
  change CHIP_HALT with 128.
  rewrite bytearray_of_1 by exact Hreg.
  unfold DATETIME_REG.
  rewrite <- app_assoc. reflexivity.
Qed.

Lemma square_wave_outcome (q o : Z) (s : Self) :
  square_wave q o s = (Raise (ValueError square_wave_msg), s)
  \/ (exists reg : Z,
        square_wave q o s
        = (Ok tt,
           {| _addr := _addr s;
              _i2c := {| mem := store (mem (_i2c s)) CONTROL_REG [reg];
                         trace := trace (_i2c s)
                                  ++ [WriteMem (_addr s) CONTROL_REG [reg]] |};
              _weekday_start := _weekday_start s;
              _halt := _halt s |})).
Proof.
  unfold square_wave.
  destruct (existsb (Z.eqb q) [0; 1; 4; 8; 32]) eqn:E; [|left; reflexivity].
  right.
  apply existsb_exists in E. destruct E as [x [Hin Hx]].
  apply Z.eqb_eq in Hx. subst x.
  unfold bind, gets, lift, bus, writeto_mem, bytearray_of.
  simpl in Hin.
  destruct (o >? 0);
    destruct Hin as [H | [H | [H | [H | [H | []]]]]]; subst q;
    eexists; reflexivity.
Qed.

Lemma snd_bind_lift {A C : Type} (m : M A) (g : A -> Result C) (s : Self) :
  snd (bind m (fun a => lift (g a)) s) = snd (m s).
Proof. unfold bind, lift. destruct (m s) as [[a | e] s']; reflexivity. Qed.

Lemma land_set_bit7_0x7F (b : Z) : Z.land (Z.lor b 128) 0x7F = Z.land b 0x7F.
Proof. rewrite Z.land_lor_distr_l. apply Z.lor_0_r. Qed.

Lemma land_clear_bit7_0x7F (b : Z) :
  Z.land (Z.land b (Z.lnot 128)) 0x7F = Z.land b 0x7F.
Proof. rewrite <- Z.land_assoc. reflexivity. Qed.

(** X15: neither halting or resuming the oscillator nor configuring the
    square-wave pin changes what the datetime getter returns: the halt
    setter keeps the low seven bits of the seconds register, which is all
    the getter decodes of it, and the square-wave setter writes register 7
    only. *)
Theorem datetime_after_halt_or_square_wave
  (s : Self) (value : bool) (sqw out : Z)
  (Hbyte : 0 <= mem (_i2c s) 0 < 256) :
  fst (bind (set_halt value) (fun _ => datetime) s) = fst (datetime s)
  /\ fst (datetime (snd (square_wave sqw out s))) = fst (datetime s).
Proof.
  split.
  - unfold bind at 1. rewrite (set_halt_run s value Hbyte).
    rewrite !datetime_run.
    cbn -[_bcd_to_dec Z.land Z.lor Z.lnot day_of_year].
    destruct value;
      [rewrite land_set_bit7_0x7F | rewrite land_clear_bit7_0x7F];
      reflexivity.
  - destruct (square_wave_outcome sqw out s) as [Hr | [reg Hr]];
      rewrite Hr; [reflexivity|].
    rewrite !datetime_run. reflexivity.
Qed.

Lemma datetime_after_halt_or_square_wave_witness :
  fst (bind (set_halt true) (fun _ => datetime)
            (fresh [89; 69; 32; 3; 41; 5; 35]))
  = fst (datetime (fresh [89; 69; 32; 3; 41; 5; 35]))
  /\ fst (datetime (snd (square_wave 32 1 (fresh [89; 69; 32; 3; 41; 5; 35]))))
     = fst (datetime (fresh [89; 69; 32; 3; 41; 5; 35])).
Proof.
  apply (datetime_after_halt_or_square_wave
           (fresh [89; 69; 32; 3; 41; 5; 35]) true 32 1).
  simpl. lia.
Defined.

(** ** The cached halt flag against the chip *)

Lemma call_keeps_coherent (c : Call) (s : Self) :
  halt_coherent s -> halt_coherent (call c s).
Proof.
  intros [Hbyte Hbit].
  assert (Hread : halt_coherent (snd (datetime s))).
  { rewrite datetime_run. split; [exact Hbyte | exact Hbit]. }
  destruct c as [ | | value | | t | | | | | | | | | | value | sqw out ]; simpl;
    try (split; [exact Hbyte | exact Hbit]);
    try exact Hread;
    try (unfold year, month, day, hour, minute, second, weekday, yearday;
         rewrite snd_bind_lift; exact Hread).
  - rewrite set_weekday_start_run.
    destruct ((0 <=? value) && (value <=? 6)); split; assumption.
  - destruct (set_datetime_outcome t s)
      as [[e Hr] | [b0 [b1 [b2 [b3 [b4 [b5 [b6 [Hbytes [Hb7 Hr]]]]]]]]]];
      rewrite Hr; [split; assumption|].
    cbn [forallb] in Hbytes.
    apply andb_true_iff in Hbytes. destruct Hbytes as [Hb0 _].
    apply byte_ok_iff in Hb0.
    split; [exact Hb0 | exact Hb7].
  - rewrite (set_halt_run s value Hbyte).
    split.
    + destruct value; [apply set_bit7_byte | apply clear_bit7_byte]; exact Hbyte.
    + cbn -[Z.lor Z.land Z.lnot Z.testbit].
      destruct value.
      * rewrite set_bit7_bits. apply orb_true_r.
      * rewrite clear_bit7_bits by lia. apply andb_false_r.
  - destruct (square_wave_outcome sqw out s) as [Hr | [reg Hr]];
      rewrite Hr; split; assumption.
Qed.

(** X16: once the seconds register holds a byte whose bit 7 is the
    cached halt flag, every sequence of calls keeps it so, whether the
    calls return or raise: the cache and the chip cannot drift apart
    through the driver. *)
Theorem halt_cache_stays_coherent (cs : list Call) (s : Self)
  (Hs : halt_coherent s) :
  halt_coherent (calls cs s).
Proof.
  unfold calls. revert s Hs.
  induction cs as [|c cs IH]; intros s Hs; simpl; [exact Hs|].
  apply IH. apply call_keeps_coherent. exact Hs.
Qed.

Lemma halt_cache_stays_coherent_witness :
  halt_coherent
    (calls [SetHalt true; SetDatetime [2023; 5; 29; 20; 45; 59; 3; 149];
            GetDatetime; SquareWave 1 0; SetHalt false; GetWeekday]
           (fresh [0x59])).
Proof.
  apply halt_cache_stays_coherent.
  split; [simpl; lia | reflexivity].
Defined.

(** X17: a successful datetime write and a halt write over a byte each
    make the cache and the chip agree, whatever they were before; in
    particular the first datetime written through a new instance clears
    bit 7 of the seconds register, starting a halted oscillator. *)
Theorem halt_cache_made_coherent
  (t : list Z) (value : bool) (s : Self)
  (Hwritten : fst (set_datetime t s) = Ok tt)
  (Hbyte : 0 <= mem (_i2c s) 0 < 256) :
  halt_coherent (snd (set_datetime t s))
  /\ halt_coherent (snd (set_halt value s))
  /\ (_halt s = false ->
      Z.testbit (mem (_i2c (snd (set_datetime t s))) 0) 7 = false).
Proof.
  assert (Hset : halt_coherent (snd (set_datetime t s))).
  { destruct (set_datetime_outcome t s)
      as [[e Hr] | [b0 [b1 [b2 [b3 [b4 [b5 [b6 [Hbytes [Hb7 Hr]]]]]]]]]];
      rewrite Hr in Hwritten |- *; [discriminate Hwritten|].
    cbn [forallb] in Hbytes.
    apply andb_true_iff in Hbytes. destruct Hbytes as [Hb0 _].
    apply byte_ok_iff in Hb0.
    split; [exact Hb0 | exact Hb7]. }
  split; [exact Hset|]. split.
  - rewrite (set_halt_run s value Hbyte).
    split.
    + destruct value; [apply set_bit7_byte | apply clear_bit7_byte]; exact Hbyte.
    + cbn -[Z.lor Z.land Z.lnot Z.testbit].
      destruct value.
      * rewrite set_bit7_bits. apply orb_true_r.
      * rewrite clear_bit7_bits by lia. apply andb_false_r.
  - intros Hh. destruct Hset as [_ Hbit]. rewrite Hbit.
    rewrite (keeps_set_datetime _halt) by reflexivity. exact Hh.
Qed.

Lemma halt_cache_made_coherent_witness :
  halt_coherent
    (snd (set_datetime [2023; 5; 29; 20; 45; 59; 3; 149] (fresh [0xD9])))
  /\ halt_coherent (snd (set_halt true (fresh [0xD9])))
  /\ (_halt (fresh [0xD9]) = false ->
      Z.testbit
        (mem (_i2c (snd (set_datetime [2023; 5; 29; 20; 45; 59; 3; 149]
                                      (fresh [0xD9])))) 0) 7 = false).
Proof.
  apply (halt_cache_made_coherent
           [2023; 5; 29; 20; 45; 59; 3; 149] true (fresh [0xD9])).
  - reflexivity.
  - simpl. lia.
Defined.

(** ** Which registers are written *)

Lemma set_datetime_frame (t : list Z) (s : Self) (r : Z) :
  ~ 0 <= r <= 6 ->
  mem (_i2c (snd (set_datetime t s))) r = mem (_i2c s) r.
Proof.
  intros Hr.
  destruct (set_datetime_outcome t s)
    as [[e Hrun] | [b0 [b1 [b2 [b3 [b4 [b5 [b6 [_ [_ Hrun]]]]]]]]]];
    rewrite Hrun; [reflexivity|].
  cbn [snd _i2c mem].
  apply store_outside. cbn [List.length]. lia.
Qed.

Lemma set_halt_frame (value : bool) (s : Self) (r : Z) :
  r <> 0 ->
  mem (_i2c (snd (set_halt value s))) r = mem (_i2c s) r.
Proof.
  intros Hr.
  unfold set_halt, bind, gets, bus, lift, set_halt_attr.
  rewrite readfrom_mem_1.
  cbn -[byte_ok Z.lor Z.land Z.lnot bytearray_of store].
  destruct (bytearray_of _) as [buf | e] eqn:E; [|reflexivity].
  cbn [snd _i2c mem writeto_mem].
  unfold bytearray_of in E.
  destruct (forallb byte_ok _); [|discriminate E].
  injection E as <-.
  apply store_outside. cbn [List.length]. unfold DATETIME_REG. lia.
Qed.

Lemma square_wave_frame (q o : Z) (s : Self) (r : Z) :
  r <> 7 ->
  mem (_i2c (snd (square_wave q o s))) r = mem (_i2c s) r.
Proof.
  intros Hr.
  destruct (square_wave_outcome q o s) as [Hrun | [reg Hrun]];
    rewrite Hrun; [reflexivity|].
  cbn [snd _i2c mem].
  apply store_outside. cbn [List.length]. unfold CONTROL_REG. lia.
Qed.

Lemma datetime_frame (s : Self) : mem (_i2c (snd (datetime s))) = mem (_i2c s).
Proof. rewrite datetime_run. reflexivity. Qed.

(** X18: each method writes its own registers only, whether it returns
    or raises: the datetime setter changes nothing outside registers 0..6,
    the halt setter nothing but register 0, the square-wave setter nothing
    but register 7, and the datetime getter no register at all. *)
Theorem registers_written_by_each_method
  (t : list Z) (value : bool) (sqw out : Z) (s : Self) (r : Z) :
  (~ 0 <= r <= 6 -> mem (_i2c (snd (set_datetime t s))) r = mem (_i2c s) r)
  /\ (r <> 0 -> mem (_i2c (snd (set_halt value s))) r = mem (_i2c s) r)
  /\ (r <> 7 -> mem (_i2c (snd (square_wave sqw out s))) r = mem (_i2c s) r)
  /\ mem (_i2c (snd (datetime s))) r = mem (_i2c s) r.
Proof.
  split; [apply set_datetime_frame|].
  split; [apply set_halt_frame|].
  split; [apply square_wave_frame|].
  rewrite datetime_frame. reflexivity.
Qed.

Lemma call_keeps_ram (c : Call) (s : Self) (r : Z) :
  RAM_REG <= r -> mem (_i2c (call c s)) r = mem (_i2c s) r.
Proof.
  unfold RAM_REG. intros Hr.
  destruct c as [ | | value | | t | | | | | | | | | | value | sqw out ]; simpl;
    try reflexivity;
    try (rewrite datetime_frame; reflexivity);
    try (unfold year, month, day, hour, minute, second, weekday, yearday;
         rewrite snd_bind_lift, datetime_frame; reflexivity).
  - rewrite set_weekday_start_run.
    destruct ((0 <=? value) && (value <=? 6)); reflexivity.
  - apply set_datetime_frame. lia.
  - apply set_halt_frame. lia.
  - apply square_wave_frame. lia.
Qed.

(** X19: no sequence of calls, returning or raising, changes a register
    from [RAM_REG] = 8 on: the driver never writes the RAM of the chip. *)
Theorem ram_never_written (cs : list Call) (s : Self) (r : Z)
  (Hr : RAM_REG <= r) :
  mem (_i2c (calls cs s)) r = mem (_i2c s) r.
Proof.
  unfold calls. revert s.
  induction cs as [|c cs IH]; intros s; simpl; [reflexivity|].
  rewrite IH. apply call_keeps_ram. exact Hr.
Qed.

Lemma ram_never_written_witness :
  mem (_i2c (calls [SetHalt true;
                    SetDatetime [2023; 5; 29; 20; 45; 59; 3; 149];
                    SquareWave 32 1; GetDatetime]
                   (fresh [0; 0; 0; 0; 0; 0; 0; 0; 0xAB]))) 8
  = mem (_i2c (fresh [0; 0; 0; 0; 0; 0; 0; 0; 0xAB])) 8.
Proof.
  apply ram_never_written. unfold RAM_REG. lia.
Defined.

(** ** Halting twice *)

Lemma halt_bit_overwrite (b : Z) (v1 v2 : bool) :
  (if v2
   then Z.lor (if v1 then Z.lor b 128 else Z.land b (Z.lnot 128)) 128
   else Z.land (if v1 then Z.lor b 128 else Z.land b (Z.lnot 128))
               (Z.lnot 128))
  = if v2 then Z.lor b 128 else Z.land b (Z.lnot 128).
Proof.
  destruct v1, v2.
  - rewrite <- Z.lor_assoc. reflexivity.
  - rewrite Z.land_lor_distr_l. apply Z.lor_0_r.
  - rewrite Z.lor_land_distr_l.
    change (Z.lor (Z.lnot 128) 128) with (-1). apply Z.land_m1_r.
  - rewrite <- Z.land_assoc. reflexivity.
Qed.

(** X20: of two halt writes in a row the last one wins: the seconds
    register and the cache end as after the second write alone, the low
    seven bits of the register being kept throughout; and the halt getter
    returns what was last written. *)
Theorem set_halt_last_wins (s : Self) (v1 v2 : bool)
  (Hbyte : 0 <= mem (_i2c s) 0 < 256) :
  mem (_i2c (snd (set_halt v2 (snd (set_halt v1 s))))) 0
  = mem (_i2c (snd (set_halt v2 s))) 0
  /\ _halt (snd (set_halt v2 (snd (set_halt v1 s)))) = v2
  /\ fst (bind (set_halt v1) (fun _ => halt) s) = Ok v1
  /\ Z.land (mem (_i2c (snd (set_halt v2 (snd (set_halt v1 s))))) 0) 0x7F
     = Z.land (mem (_i2c s) 0) 0x7F.
Proof.
  assert (Hb1 : 0 <= (if v1 then Z.lor (mem (_i2c s) 0) 128
                      else Z.land (mem (_i2c s) 0) (Z.lnot 128)) < 256).
  { destruct v1; [apply set_bit7_byte | apply clear_bit7_byte]; exact Hbyte. }
  unfold bind.
  rewrite (set_halt_run s v1 Hbyte), (set_halt_run s v2 Hbyte).
  rewrite set_halt_run by exact Hb1.
  cbn -[Z.lor Z.land Z.lnot].
  rewrite halt_bit_overwrite.
  repeat split.
  destruct v2; [apply land_set_bit7_0x7F | apply land_clear_bit7_0x7F].
Qed.

Lemma set_halt_last_wins_witness :
  mem (_i2c (snd (set_halt false (snd (set_halt true (fresh [0x59])))))) 0
  = mem (_i2c (snd (set_halt false (fresh [0x59])))) 0
  /\ _halt (snd (set_halt false (snd (set_halt true (fresh [0x59]))))) = false
  /\ fst (bind (set_halt true) (fun _ => halt) (fresh [0x59])) = Ok true
  /\ Z.land (mem (_i2c (snd (set_halt false
                                (snd (set_halt true (fresh [0x59])))))) 0)
            0x7F
     = Z.land (mem (_i2c (fresh [0x59])) 0) 0x7F.
Proof.
  apply (set_halt_last_wins (fresh [0x59]) true false).
  simpl. lia.
Defined.
